(** * Heady_Chain: the access-grant ledger

    A shallow embedding of [Heady/HeadyAcademy/Tools/Heady_Chain.py]
    (classes [Block] and [HeadyChain] and the command-line entry point)
    together with the properties of the ledger: hash determinism,
    proof-of-work sealing, chain linkage, append, lookup, the persistence
    round trip and the behaviour of [load] on damaged files.

    The Python file holds several successive revisions of the same two
    classes.  The development follows the last revision of the ledger
    (the one that names the digest method [compute_hash] and restores
    [nonce] and [hash] on load); the older revisions that differ in a way
    that matters are embedded in the modules [FourFieldLoad],
    [DifficultyFour] and [FirstMain]. *)

From Stdlib Require Import ZArith List Bool String Ascii Lia.
From Stdlib Require Import DecimalString.
Import ListNotations.

Local Open Scope Z_scope.
Local Open Scope string_scope.

(** ** The digest primitive: [hashlib.sha256(s.encode()).hexdigest()]

    SHA-256 as in FIPS 180-4, on 32-bit words carried as [Z] with the
    wrap-around at [2^32] written out.  A Python [str] is carried as a
    Rocq [string], that is as the sequence of bytes of its UTF-8 encoding,
    a lone surrogate in the three bytes [ED A0..BF 80..BF] that the same
    scheme gives it.  On a [str] without surrogates [.encode()] is the
    identity.  On a [str] with one it raises [UnicodeEncodeError]; the
    digest below is defined on these bytes all the same, and
    [has_surrogate] and [block_str_error] tell where the program would
    have raised instead. *)

Module SHA256.

Definition mask32 : Z := 0xffffffff.

(** Reduction modulo [2^32], as a mask. *)
Definition w32 (x : Z) : Z := Z.land x mask32.

Definition add32 (a b : Z) : Z := w32 (a + b).

Definition rotr (n x : Z) : Z :=
  Z.lor (Z.shiftr x n) (w32 (Z.shiftl x (32 - n))).

Definition shr (n x : Z) : Z := Z.shiftr x n.

Definition not32 (x : Z) : Z := Z.lxor x mask32.

Definition Ch (x y z : Z) : Z :=
  Z.lxor (Z.land x y) (Z.land (not32 x) z).

Definition Maj (x y z : Z) : Z :=
  Z.lxor (Z.lxor (Z.land x y) (Z.land x z)) (Z.land y z).

Definition Sigma0 (x : Z) : Z :=
  Z.lxor (Z.lxor (rotr 2 x) (rotr 13 x)) (rotr 22 x).

Definition Sigma1 (x : Z) : Z :=
  Z.lxor (Z.lxor (rotr 6 x) (rotr 11 x)) (rotr 25 x).

Definition sigma0 (x : Z) : Z :=
  Z.lxor (Z.lxor (rotr 7 x) (rotr 18 x)) (shr 3 x).

Definition sigma1 (x : Z) : Z :=
  Z.lxor (Z.lxor (rotr 17 x) (rotr 19 x)) (shr 10 x).

(** The round constants and the initial state are not tabulated: they
    are the first 32 bits of the fractional parts of the cube roots of
    the first sixty-four primes and of the square roots of the first
    eight. *)
Definition is_prime (n : nat) : bool :=
  forallb (fun d => negb (Nat.eqb (Nat.modulo n d) 0)) (seq 2 (n - 2)).

Definition primes : list Z :=
  Eval vm_compute in map Z.of_nat (firstn 64 (filter is_prime (seq 2 400))).

(** The largest [r] in [lo, hi) with [r^3 <= n], by bisection. *)
Fixpoint cube_root (fuel : nat) (lo hi n : Z) : Z :=
  match fuel with
  | O => lo
  | S fuel' =>
      if (hi - lo <=? 1)%Z then lo
      else let mid := (lo + hi) / 2 in
           if (mid * mid * mid <=? n)%Z then cube_root fuel' mid hi n
           else cube_root fuel' lo mid n
  end.

Definition K : list Z :=
  Eval vm_compute in
    map (fun p => w32 (cube_root 40 0 (2 ^ 35) (p * 2 ^ 96))) primes.

Definition H0 : list Z :=
  Eval vm_compute in
    map (fun p => w32 (Z.sqrt (p * 2 ^ 64))) (firstn 8 primes).

(** The bytes of the message, as numbers in [0, 256). *)
Fixpoint bytes_of_string (s : string) : list Z :=
  match s with
  | EmptyString => []
  | String c s' => Z.of_N (N_of_ascii c) :: bytes_of_string s'
  end.

(** The big-endian bytes of [v], [n] of them. *)
Fixpoint be_bytes (n : nat) (v : Z) : list Z :=
  match n with
  | O => []
  | S n' => Z.land (Z.shiftr v (8 * Z.of_nat n')) 255 :: be_bytes n' v
  end.

(** Padding: a [0x80] byte, zero bytes up to 56 modulo 64, and the
    length of the message in bits as a 64-bit big-endian number. *)
Definition pad (msg : list Z) : list Z :=
  let len := Z.of_nat (List.length msg) in
  let zeros := Z.to_nat ((55 - len) mod 64) in
  msg ++ [128] ++ repeat 0 zeros ++ be_bytes 8 (8 * len).

(** Big-endian 32-bit words of a byte sequence. *)
Fixpoint words_of_bytes (bs : list Z) : list Z :=
  match bs with
  | b0 :: b1 :: b2 :: b3 :: rest =>
      (b0 * 16777216 + b1 * 65536 + b2 * 256 + b3) :: words_of_bytes rest
  | _ => []
  end.

(** The message schedule, from a window of the sixteen latest words
    (oldest first): [n] words are produced. *)
Fixpoint schedule (n : nat) (win : list Z) : list Z :=
  match n with
  | O => []
  | S n' =>
      match win with
      | [] => []
      | w0 :: rest =>
          let w1 := nth 0 rest 0 in
          let w9 := nth 8 rest 0 in
          let w14 := nth 13 rest 0 in
          let w16 := add32 (add32 (sigma1 w14) w9) (add32 (sigma0 w1) w0) in
          w0 :: schedule n' (rest ++ [w16])
      end
  end.

Record regs : Type := mkRegs
  { ra : Z; rb : Z; rc : Z; rd : Z; re : Z; rf : Z; rg : Z; rh : Z }.

Definition round (r : regs) (kw : Z * Z) : regs :=
  let '(k, w) := kw in
  let t1 := add32 (add32 (add32 (rh r) (Sigma1 (re r)))
                         (add32 (Ch (re r) (rf r) (rg r)) k)) w in
  let t2 := add32 (Sigma0 (ra r)) (Maj (ra r) (rb r) (rc r)) in
  mkRegs (add32 t1 t2) (ra r) (rb r) (rc r)
         (add32 (rd r) t1) (re r) (rf r) (rg r).

Definition regs_of_list (h : list Z) : regs :=
  mkRegs (nth 0 h 0) (nth 1 h 0) (nth 2 h 0) (nth 3 h 0)
         (nth 4 h 0) (nth 5 h 0) (nth 6 h 0) (nth 7 h 0).

Definition compress (h : list Z) (block : list Z) : list Z :=
  let r0 := regs_of_list h in
  let r := fold_left round (combine K (schedule 64 block)) r0 in
  [ add32 (ra r0) (ra r); add32 (rb r0) (rb r);
    add32 (rc r0) (rc r); add32 (rd r0) (rd r);
    add32 (re r0) (re r); add32 (rf r0) (rf r);
    add32 (rg r0) (rg r); add32 (rh r0) (rh r) ].

(** The blocks of sixteen words are absorbed one after the other;
    [n] bounds the number of blocks. *)
Fixpoint absorb (n : nat) (h : list Z) (ws : list Z) : list Z :=
  match n with
  | O => h
  | S n' =>
      match ws with
      | [] => h
      | _ => absorb n' (compress h (firstn 16 ws)) (skipn 16 ws)
      end
  end.

Definition hex_digit (d : Z) : ascii :=
  ascii_of_N (Z.to_N (if (d <? 10)%Z then 48 + d else 87 + d)).

Fixpoint hex_of_word (n : nat) (w : Z) : string :=
  match n with
  | O => EmptyString
  | S n' =>
      String (hex_digit (Z.land (Z.shiftr w (4 * Z.of_nat n')) 15))
             (hex_of_word n' w)
  end.

Definition hexdigest_of_words (h : list Z) : string :=
  fold_right (fun w acc => hex_of_word 8 w ++ acc) EmptyString h.

Definition hexdigest (s : string) : string :=
  let ws := words_of_bytes (pad (bytes_of_string s)) in
  hexdigest_of_words (absorb (List.length ws) H0 ws).

End SHA256.

(** [hashlib.sha256(s.encode()).hexdigest()] *)
Definition sha256_hex (s : string) : string := SHA256.hexdigest s.

(** The digest is never unfolded on a message that is not a literal. *)
Global Opaque sha256_hex.

(** ** Python strings *)

(** [f"{n}"] for an [int]: the decimal numeral, with a leading [-] below
    zero.  CPython refuses the conversion of an [int] of more than 4300
    digits with [ValueError]; [str_of_int] gives the numeral of every
    integer, and [int_str_ok] tells the integers that Python converts. *)
Definition str_of_int (z : Z) : string := NilZero.string_of_int (Z.to_int z).

(** [s.startswith(p)] *)
Definition startswith (s p : string) : bool := String.prefix p s.

(** [c * n] for a string [c] and a count [n]. *)
Fixpoint str_repeat (c : string) (n : nat) : string :=
  match n with
  | O => EmptyString
  | S n' => c ++ str_repeat c n'
  end.

(** [needle in hay]: [needle] occurs in [hay] as a contiguous run. *)
Fixpoint contains (needle hay : string) : bool :=
  String.prefix needle hay
  || match hay with
     | EmptyString => false
     | String _ hay' => contains needle hay'
     end.

(** ** class Block *)

Record Block : Type := mkBlock
  { index : Z;
    timestamp : string;
    data : string;
    prev_hash : string;
    nonce : Z;
    hash : string }.

Definition set_nonce (b : Block) (n : Z) : Block :=
  mkBlock (index b) (timestamp b) (data b) (prev_hash b) n (hash b).

Definition set_hash (b : Block) (h : string) : Block :=
  mkBlock (index b) (timestamp b) (data b) (prev_hash b) (nonce b) h.

(** [block_str = f"{self.index}{self.timestamp}{self.data}{self.prev_hash}{self.nonce}"] *)
Definition block_str (b : Block) : string :=
  str_of_int (index b) ++ timestamp b ++ data b ++ prev_hash b
  ++ str_of_int (nonce b).

Definition compute_hash (b : Block) : string := sha256_hex (block_str b).

(** [Block.__init__]: the four arguments, [nonce = 0], then
    [self.hash = self.compute_hash()].  This is the block the constructor
    returns; it raises instead where [compute_hash] does, that is where
    [block_str_error] (below) is not [None] on the four arguments with
    nonce [0]. *)
Definition Block_init (idx : Z) (ts dat ph : string) : Block :=
  let b := mkBlock idx ts dat ph 0 EmptyString in
  set_hash b (compute_hash b).

(** One turn of the loop body of [mine]:
    [self.nonce += 1; self.hash = self.compute_hash()]. *)
Definition mine_step (b : Block) : Block :=
  let b1 := set_nonce b (nonce b + 1) in
  set_hash b1 (compute_hash b1).

(** [Block.mine(difficulty)]: the [while] loop, unrolled at most [fuel]
    times; [None] when the loop is still running after [fuel] turns. *)
Fixpoint mine (fuel : nat) (difficulty : nat) (b : Block) : option Block :=
  if startswith (hash b) (str_repeat "0" difficulty) then Some b
  else match fuel with
       | O => None
       | S fuel' => mine fuel' difficulty (mine_step b)
       end.

(** The default of the parameter [difficulty] of [mine]. *)
Definition default_difficulty : nat := 2.

(** ** Values read from and written to the ledger file

    What [json.load] returns and [json.dump] accepts.  A [JObj] lists the
    items of a [dict] in insertion order, with pairwise distinct keys.
    [JFloat] keeps the literal only: no block field of a ledger written
    by the program is a float. *)

#[warnings="-register-all"]
Inductive json : Type :=
| JNull
| JBool (b : bool)
| JInt (z : Z)
| JFloat (lit : string)
| JStr (s : string)
| JList (l : list json)
| JObj (items : list (string * json)).

(** Lookup of a key among the items of a [dict]. *)
Fixpoint assoc (k : string) (items : list (string * json)) : option json :=
  match items with
  | [] => None
  | (k', v) :: rest => if String.eqb k k' then Some v else assoc k rest
  end.

(** ** Exceptions and results *)

Inductive exn : Type :=
| IndexError
| KeyError (key : string)
| TypeError
| FileNotFoundError
| JSONDecodeError.

(** The result of running a piece of the program:
    - [Ret a]: it returns [a];
    - [Raise e]: it raises [e], which nothing on the way catches;
    - [Running]: the mining loop is still running when the fuel is spent;
    - [Untyped]: [load] has met a record whose fields are present but are
      not an [int] index and nonce and [str] timestamp, data, previous
      hash and hash.  Python goes on with such values in the block; the
      typed record [Block] cannot hold them, and the development says
      nothing about what follows. *)
Inductive result (A : Type) : Type :=
| Ret (a : A)
| Raise (e : exn)
| Running
| Untyped.

Arguments Ret {A} a.
Arguments Raise {A} e.
Arguments Running {A}.
Arguments Untyped {A}.

(** ** The file system and the terminal

    [LEDGER_DIR] is absent ([NoDir]), or present without
    [chain_head.json] ([NoFile]), or the file is there.  The content of
    the file is what [json.load] makes of it: [BadText] when it raises
    [json.JSONDecodeError], the value it returns otherwise.  The text
    itself is not modelled: [json.dump] followed by [json.load] gives
    back the value it was given on the lists of records of integers and
    strings that the program writes. *)

Inductive content : Type :=
| BadText
| Doc (j : json).

Inductive storage : Type :=
| NoDir
| NoFile
| File (c : content).

Record world : Type := mkWorld
  { disk : storage;
    stdout : list string }.

(** Computations that read and change the world and may fail. *)
Definition M (A : Type) : Type := world -> result (A * world).

Definition ret {A : Type} (a : A) : M A := fun w => Ret (a, w).

Definition bind {A B : Type} (m : M A) (f : A -> M B) : M B :=
  fun w =>
    match m w with
    | Ret (a, w') => f a w'
    | Raise e => Raise e
    | Running => Running
    | Untyped => Untyped
    end.

Definition raise {A : Type} (e : exn) : M A := fun _ => Raise e.

Notation "x <- m ;; k" := (bind m (fun x => k))
  (at level 61, m at next level, right associativity).
Notation "m ;;; k" := (bind m (fun _ => k))
  (at level 61, right associativity).

(** [print(line)] *)
Definition print (line : string) : M unit :=
  fun w => Ret (tt, mkWorld (disk w) (stdout w ++ [line])).

(** [os.makedirs(LEDGER_DIR)] *)
Definition makedirs : M unit :=
  fun w => Ret (tt, mkWorld NoFile (stdout w)).

(** [with open(f"{LEDGER_DIR}/chain_head.json", 'w') as f: json.dump(v, f, indent=4)]:
    opening for writing fails when the directory is absent. *)
Definition write_ledger (v : json) : M unit :=
  fun w =>
    match disk w with
    | NoDir => Raise FileNotFoundError
    | _ => Ret (tt, mkWorld (File (Doc v)) (stdout w))
    end.

(** ** class HeadyChain *)

Record HeadyChain : Type := mkChain { chain : list Block }.

(** [vars(b)]: the attributes of a block, in the order [__init__]
    creates them. *)
Definition vars (b : Block) : json :=
  JObj [ ("index", JInt (index b));
         ("timestamp", JStr (timestamp b));
         ("data", JStr (data b));
         ("prev_hash", JStr (prev_hash b));
         ("nonce", JInt (nonce b));
         ("hash", JStr (hash b)) ].

(** [HeadyChain.save] *)
Definition save (self : HeadyChain) : M unit :=
  write_ledger (JList (map vars (chain self))).

(** [HeadyChain.gen]: the clock reading [now] stands for
    [str(datetime.datetime.now())]. *)
Definition gen (now : string) (self : HeadyChain) : M HeadyChain :=
  let self' := mkChain (chain self ++ [Block_init 0 now "Genesis" "0"]) in
  save self' ;;; ret self'.

(** [for b in data]: the elements the loop of [load] visits. *)
Definition py_iter (v : json) : result (list json) :=
  match v with
  | JList l => Ret l
  | JObj items => Ret (map (fun kv => JStr (fst kv)) items)
  | JStr s => Ret (map (fun c => JStr (String c EmptyString))
                       (list_ascii_of_string s))
  | JNull | JBool _ | JInt _ | JFloat _ => Raise TypeError
  end.

(** [b[key]] for a string [key]: only a [dict] can be indexed so. *)
Definition py_getitem (b : json) (key : string) : result json :=
  match b with
  | JObj items =>
      match assoc key items with
      | Some v => Ret v
      | None => Raise (KeyError key)
      end
  | _ => Raise TypeError
  end.

(** [b.get(key, default)] on the items of a [dict]. *)
Definition dict_get (items : list (string * json)) (key : string)
  (default : json) : json :=
  match assoc key items with
  | Some v => v
  | None => default
  end.

(** The body of the loop of [load] for one element [b]:
    [[
      block = Block(b['index'], b['timestamp'], b['data'], b['prev_hash'])
      block.nonce = b.get('nonce', 0)
      block.hash = b.get('hash', block.compute_hash())
    ]]
    The four subscriptions come first and raise on their own account;
    the types of the values are looked at after them. *)
Definition load_block (b : json) : result Block :=
  match py_getitem b "index" with
  | Ret i =>
    match py_getitem b "timestamp" with
    | Ret t =>
      match py_getitem b "data" with
      | Ret d =>
        match py_getitem b "prev_hash" with
        | Ret p =>
          match b, i, t, d, p with
          | JObj items, JInt idx, JStr ts, JStr dat, JStr ph =>
              let block := Block_init idx ts dat ph in
              match dict_get items "nonce" (JInt 0) with
              | JInt n =>
                  let block1 := set_nonce block n in
                  match dict_get items "hash" (JStr (compute_hash block1)) with
                  | JStr h => Ret (set_hash block1 h)
                  | _ => Untyped
                  end
              | _ => Untyped
              end
          | _, _, _, _, _ => Untyped
          end
        | Raise e => Raise e | Running => Running | Untyped => Untyped
        end
      | Raise e => Raise e | Running => Running | Untyped => Untyped
      end
    | Raise e => Raise e | Running => Running | Untyped => Untyped
    end
  | Raise e => Raise e | Running => Running | Untyped => Untyped
  end.

(** The loop of [load] over the elements [bs], the blocks appended in
    order.  A record that raises stops the loop, also when an earlier
    record was outside the typed model. *)
Fixpoint load_blocks (bs : list json) : result (list Block) :=
  match bs with
  | [] => Ret []
  | b :: bs' =>
      match load_block b with
      | Ret blk =>
          match load_blocks bs' with
          | Ret c => Ret (blk :: c)
          | Raise e => Raise e
          | Running => Running
          | Untyped => Untyped
          end
      | Raise e => Raise e
      | Running => Running
      | Untyped =>
          match load_blocks bs' with
          | Raise e => Raise e
          | _ => Untyped
          end
      end
  end.

(** [HeadyChain.load]: [FileNotFoundError] from [open] and
    [json.JSONDecodeError] from [json.load] are the two exceptions the
    [except] clause catches; both lead to [gen]. *)
Definition load (now : string) (self : HeadyChain) : M HeadyChain :=
  fun w =>
    match disk w with
    | NoDir | NoFile | File BadText => gen now self w
    | File (Doc v) =>
        match py_iter v with
        | Ret bs =>
            match load_blocks bs with
            | Ret c => Ret (mkChain c, w)
            | Raise e => Raise e
            | Running => Running
            | Untyped => Untyped
            end
        | Raise e => Raise e
        | Running => Running
        | Untyped => Untyped
        end
    end.

(** [HeadyChain.__init__] *)
Definition HeadyChain_init (now : string) : M HeadyChain :=
  fun w =>
    let self := mkChain [] in
    match disk w with
    | NoDir => (makedirs ;;; gen now self) w
    | NoFile | File _ => load now self w
    end.

(** [l[-1]] *)
Definition last_block (l : list Block) : option Block :=
  match rev l with
  | [] => None
  | b :: _ => Some b
  end.

(** The body of [HeadyChain.add], where [b.mine()] runs with the default
    [difficulty] of the revision at hand; [now] is the clock reading
    taken for the new block, [fuel] bounds the mining loop. *)
Definition add_with (difficulty : nat) (fuel : nat) (now r u : string)
  (self : HeadyChain) : M HeadyChain :=
  match last_block (chain self) with
  | None => raise IndexError
  | Some p =>
      let b := Block_init (index p + 1) now (r ++ ":" ++ u) (hash p) in
      match mine fuel difficulty b with
      | None => fun _ => Running
      | Some b' =>
          let self' := mkChain (chain self ++ [b']) in
          save self' ;;;
          print ("Mined: " ++ hash b') ;;;
          ret self'
      end
  end.

(** [HeadyChain.add] *)
Definition add : nat -> string -> string -> string -> HeadyChain
                 -> M HeadyChain :=
  add_with default_difficulty.

(** The loop of [verify] over the blocks in the order it visits them. *)
Fixpoint verify_scan (needle : string) (bs : list Block) : bool :=
  match bs with
  | [] => false
  | b :: bs' => if contains needle (data b) then true
                else verify_scan needle bs'
  end.

(** [HeadyChain.verify] *)
Definition verify (r u : string) (self : HeadyChain) : bool :=
  verify_scan (r ++ ":" ++ u) (rev (chain self)).

(** ** The command line *)

Definition usage_line : string :=
  "Usage: python Heady_Chain.py <grant|verify> <role> <user>".

Definition invalid_line : string :=
  "Invalid command or missing arguments".

(** [sys.argv[i]], read only where the length test has passed. *)
Definition arg (argv : list string) (i : nat) : string :=
  nth i argv EmptyString.

(** The [__main__] block of the last revision of the ledger; [t0] is the
    clock reading of the constructor and [t1] that of [add]. *)
Definition main (fuel : nat) (t0 t1 : string) (argv : list string) : M unit :=
  hc <- HeadyChain_init t0 ;;
  if (List.length argv <? 2)%nat then
    print usage_line
  else if String.eqb (arg argv 1) "grant" && (4 <=? List.length argv)%nat then
    add fuel t1 (arg argv 2) (arg argv 3) hc ;;; ret tt
  else if String.eqb (arg argv 1) "verify" && (4 <=? List.length argv)%nat then
    print (if verify (arg argv 2) (arg argv 3) hc
           then "ACCESS GRANTED" else "DENIED")
  else
    print invalid_line.

(** * Older revisions of the ledger in the same file *)

(** The revisions whose [load] rebuilds each block from four fields:
    [[
      self.chain = [Block(b['index'], b['timestamp'], b['data'], b['prev_hash'])
                    for b in json.load(f)]
    ]]
    inside the same [try] as the last revision.  [Block.calc] of these
    revisions is [compute_hash] under another name. *)
Module FourFieldLoad.

Definition load_block (b : json) : result Block :=
  match py_getitem b "index" with
  | Ret i =>
    match py_getitem b "timestamp" with
    | Ret t =>
      match py_getitem b "data" with
      | Ret d =>
        match py_getitem b "prev_hash" with
        | Ret p =>
          match i, t, d, p with
          | JInt idx, JStr ts, JStr dat, JStr ph => Ret (Block_init idx ts dat ph)
          | _, _, _, _ => Untyped
          end
        | Raise e => Raise e | Running => Running | Untyped => Untyped
        end
      | Raise e => Raise e | Running => Running | Untyped => Untyped
      end
    | Raise e => Raise e | Running => Running | Untyped => Untyped
    end
  | Raise e => Raise e | Running => Running | Untyped => Untyped
  end.

Fixpoint load_blocks (bs : list json) : result (list Block) :=
  match bs with
  | [] => Ret []
  | b :: bs' =>
      match load_block b with
      | Ret blk =>
          match load_blocks bs' with
          | Ret c => Ret (blk :: c)
          | Raise e => Raise e
          | Running => Running
          | Untyped => Untyped
          end
      | Raise e => Raise e
      | Running => Running
      | Untyped =>
          match load_blocks bs' with
          | Raise e => Raise e
          | _ => Untyped
          end
      end
  end.

Definition load (now : string) (self : HeadyChain) : M HeadyChain :=
  fun w =>
    match disk w with
    | NoDir | NoFile | File BadText => gen now self w
    | File (Doc v) =>
        match py_iter v with
        | Ret bs =>
            match load_blocks bs with
            | Ret c => Ret (mkChain c, w)
            | Raise e => Raise e
            | Running => Running
            | Untyped => Untyped
            end
        | Raise e => Raise e
        | Running => Running
        | Untyped => Untyped
        end
    end.

End FourFieldLoad.

(** The revisions whose [mine] has the default [difficulty=4]. *)
Module DifficultyFour.

Definition default_difficulty : nat := 4.

Definition add : nat -> string -> string -> string -> HeadyChain
                 -> M HeadyChain :=
  add_with default_difficulty.

End DifficultyFour.

(** The first revision: [load] has no [try], and the first [__main__]
    block reads [sys.argv[1]] before any test of the length.  Its [mine]
    loops [while self.hash[:2] != "00"], the test of [mine] at
    difficulty 2. *)
Module FirstMain.

Definition load (self : HeadyChain) : M HeadyChain :=
  fun w =>
    match disk w with
    | NoDir | NoFile => Raise FileNotFoundError
    | File BadText => Raise JSONDecodeError
    | File (Doc v) =>
        match py_iter v with
        | Ret bs =>
            match FourFieldLoad.load_blocks bs with
            | Ret c => Ret (mkChain c, w)
            | Raise e => Raise e
            | Running => Running
            | Untyped => Untyped
            end
        | Raise e => Raise e
        | Running => Running
        | Untyped => Untyped
        end
    end.

Definition HeadyChain_init (now : string) : M HeadyChain :=
  fun w =>
    let self := mkChain [] in
    match disk w with
    | NoDir => (makedirs ;;; gen now self) w
    | NoFile | File _ => load self w
    end.

(** [sys.argv[i]] *)
Definition argv_get (argv : list string) (i : nat) : M string :=
  match nth_error argv i with
  | Some s => ret s
  | None => raise IndexError
  end.

(** The [__main__] block: two unguarded [if] statements, then the
    guarded chain.  [t0], [t1], [t2] are the clock readings of the
    constructor and of the two calls of [add]. *)
Definition main (fuel : nat) (t0 t1 t2 : string) (argv : list string)
  : M unit :=
  hc <- HeadyChain_init t0 ;;
  a1 <- argv_get argv 1 ;;
  hc1 <- (if String.eqb a1 "grant" then
            a2 <- argv_get argv 2 ;;
            a3 <- argv_get argv 3 ;;
            add fuel t1 a2 a3 hc
          else ret hc) ;;
  a1' <- argv_get argv 1 ;;
  (if String.eqb a1' "verify" then
     a2 <- argv_get argv 2 ;;
     a3 <- argv_get argv 3 ;;
     print (if verify a2 a3 hc1 then "ACCESS GRANTED" else "DENIED")
   else ret tt) ;;;
  if (List.length argv <? 2)%nat then
    print usage_line
  else if String.eqb (arg argv 1) "grant" && (4 <=? List.length argv)%nat then
    add fuel t2 (arg argv 2) (arg argv 3) hc1 ;;; ret tt
  else if String.eqb (arg argv 1) "verify" && (4 <=? List.length argv)%nat then
    print (if verify (arg argv 2) (arg argv 3) hc1
           then "ACCESS GRANTED" else "DENIED")
  else
    print invalid_line.

End FirstMain.

(** * Specification vocabulary *)

(** A block whose hash starts with [difficulty] zeros. *)
Definition sealed (difficulty : nat) (b : Block) : bool :=
  startswith (hash b) (str_repeat "0" difficulty).

(** A block whose [hash] is the digest of its current fields. *)
Definition consistent (b : Block) : Prop := hash b = compute_hash b.

(** The world [save] leaves: the file holds the dumped chain. *)
Definition saved (c : list Block) (out : list string) : world :=
  mkWorld (File (Doc (JList (map vars c)))) out.

(** The block [add] hands to [mine]. *)
Definition candidate (p : Block) (now r u : string) : Block :=
  Block_init (index p + 1) now (r ++ ":" ++ u) (hash p).

(** Every block after the first names the hash of the block before it
    and carries the next index. *)
Definition linked (c : list Block) : Prop :=
  forall (i : nat) (p b : Block),
    nth_error c i = Some p -> nth_error c (S i) = Some b ->
    prev_hash b = hash p /\ index b = index p + 1.

(** Storage that holds no ledger to read: the directory or the file is
    absent, or the file is not JSON. *)
Definition blank (d : storage) : Prop :=
  d = NoDir \/ d = NoFile \/ d = File BadText.

(** The ledger states the program reaches: the constructor runs on blank
    storage, or on the storage an earlier run of the program has left
    (with a terminal of its own), and [add] runs on a constructed
    ledger. *)
Inductive reachable : HeadyChain -> world -> Prop :=
| reach_boot (now : string) (w w' : world) (self : HeadyChain) :
    blank (disk w) ->
    HeadyChain_init now w = Ret (self, w') ->
    reachable self w'
| reach_restart (now : string) (self0 self : HeadyChain) (w0 w' : world)
    (out : list string) :
    reachable self0 w0 ->
    HeadyChain_init now (mkWorld (disk w0) out) = Ret (self, w') ->
    reachable self w'
| reach_add (fuel : nat) (now r u : string) (self self' : HeadyChain)
    (w w' : world) :
    reachable self w ->
    add fuel now r u self w = Ret (self', w') ->
    reachable self' w'.

(** What holds of every reachable ledger: the file mirrors the chain,
    the chain starts with a genesis block, is linked, every later block
    is sealed at the default difficulty, and every block carries the
    digest of its fields. *)
Record ledger_inv (self : HeadyChain) (w : world) : Prop := mkInv
  { inv_disk : disk w = File (Doc (JList (map vars (chain self))));
    inv_genesis : exists g rest,
        chain self = g :: rest /\
        index g = 0 /\ prev_hash g = "0" /\ data g = "Genesis" /\
        Forall (fun b => sealed default_difficulty b = true) rest;
    inv_linked : linked (chain self);
    inv_consistent : Forall consistent (chain self) }.

(** * What the conversions of Python refuse

    [compute_hash] formats the two integers of a block and encodes the
    text; [json.dump] formats the integers of every block.  Both raise
    where the functions above go on: the conversion of an [int] to text
    raises [ValueError] beyond [sys.get_int_max_str_digits()] digits
    (4300 unless the interpreter is told otherwise), and [.encode()]
    raises [UnicodeEncodeError] on a lone surrogate.  The statements that
    conclude that [add] or the body of [load] returns, or raises nothing,
    are made where these functions answer [None]. *)

Definition int_max_str_digits : Z := 4300.

(** The integers that [f"{z}"], [str(z)] and [repr(z)] convert: at most
    [int_max_str_digits] digits, the sign not counted. *)
Definition int_str_ok (z : Z) : bool :=
  (Z.abs z <? 10 ^ int_max_str_digits)%Z.

(** A surrogate (U+D800 to U+DFFF) occurs in the text: the byte [ED]
    followed by a byte from [A0] to [BF]. *)
Fixpoint has_surrogate (s : string) : bool :=
  match s with
  | EmptyString => false
  | String a s' =>
      match s' with
      | EmptyString => false
      | String b _ =>
          ((N_of_ascii a =? 237)%N
           && (160 <=? N_of_ascii b)%N && (N_of_ascii b <=? 191)%N)
          || has_surrogate s'
      end
  end.

Inductive conversion_error : Type :=
| ValueError
| UnicodeEncodeError.

(** What [compute_hash] raises on the block [b], if anything: the
    f-string formats [index] and [nonce], and only then is the text
    encoded. *)
Definition block_str_error (b : Block) : option conversion_error :=
  if negb (int_str_ok (index b) && int_str_ok (nonce b)) then Some ValueError
  else if has_surrogate (timestamp b) || has_surrogate (data b)
          || has_surrogate (prev_hash b)
       then Some UnicodeEncodeError
       else None.

(** What [json.dump] of the records of the chain [c] raises, if
    anything.  With [ensure_ascii] left on, a surrogate is written as an
    escape, so only the integers matter. *)
Definition dump_error (c : list Block) : option conversion_error :=
  if forallb (fun b => int_str_ok (index b) && int_str_ok (nonce b)) c
  then None else Some ValueError.





(** A role that holds a lone surrogate (U+DC80), as [sys.argv] gives it
    for a byte [80] on the command line. *)
Definition surrogate_role : string :=
  String (ascii_of_N 237)
    (String (ascii_of_N 178) (String (ascii_of_N 128) EmptyString)).

(** A tail block whose index is the largest that Python converts: 4300
    nines. *)
Definition last_index_block : Block :=
  mkBlock (10 ^ int_max_str_digits - 1) "then" "editor:bob" "00" 0 "00".

(** * A run of the program, used to exercise the statements

    Two clock readings and the blocks they lead to: the genesis block of
    a fresh ledger and the block [grant editor bob] appends to it, which
    is sealed at nonce 3. *)

Definition t_boot : string := "2024-01-01 09:00:00.000000".
Definition t_grant : string := "2024-01-01 09:05:00.000054".

Definition fresh_world : world := mkWorld NoDir [].

Definition genesis_block : Block :=
  mkBlock 0 t_boot "Genesis" "0" 0
    "133c5d3e8226f0ea6e015550005f097f7bf309e50db8282648af189ba7a11753".

Definition editor_bob_block : Block :=
  mkBlock 1 t_grant "editor:bob" (hash genesis_block) 3
    "0061e2d3f35ec3a0261a0a90ab935f2934d4531b38681ff7dd4bf3f78947fede".

Definition t_admin : string := "2024-01-01 09:05:00.000183".

Definition admin_alice_block : Block :=
  mkBlock 1 t_admin "admin:alice" (hash genesis_block) 3
    "001fbcd9c0cea55abf68f08c1522637ac6ddf1316ef6e7253b3e33839e393de6".

(** A block whose stored hash is not the digest of its fields. *)
Definition forged_block : Block :=
  mkBlock 7 "then" "root:mallory" "ff" 12 "00ff".

(** A ledger file that is valid JSON but whose only record lacks
    [timestamp], [data] and [prev_hash]. *)
Definition truncated_record : json := JList [JObj [("index", JInt 0)]].

Definition truncated_world : world := mkWorld (File (Doc truncated_record)) [].

(** * Vocabulary of the further properties *)

(** The sixteen characters of a hexadecimal digest. *)
Definition is_hex (c : ascii) : bool :=
  existsb (Ascii.eqb c) (list_ascii_of_string "0123456789abcdef").

Fixpoint all_hex (s : string) : bool :=
  match s with
  | EmptyString => true
  | String c s' => is_hex c && all_hex s'
  end.

(** The character [c] occurs in [s]. *)
Fixpoint has_char (c : ascii) (s : string) : bool :=
  match s with
  | EmptyString => false
  | String c' s' => Ascii.eqb c c' || has_char c s'
  end.



(** Storage the program can start from: blank, or holding a saved
    chain. *)
Definition startable (d : storage) : Prop :=
  blank d \/ exists c, d = File (Doc (JList (map vars c))).

(** Two more blocks of the run: [grant viewer carol] after
    [grant editor bob], sealed at nonce 2, and a second
    [grant editor bob], sealed at nonce 1. *)
Definition t_carol : string := "2024-01-01 09:06:00.000281".

Definition viewer_carol_block : Block :=
  mkBlock 2 t_carol "viewer:carol" (hash editor_bob_block) 2
    "003033de2dfb415875b55dc35b1f96c29a4d91ae2ff34f5529bac3bcd3fcd360".

Definition t_team : string := "2024-01-01 09:07:00.000636".

(** [grant team:ops dana] on the fresh ledger, sealed at nonce 2. *)
Definition team_ops_dana_block : Block :=
  mkBlock 1 t_team "team:ops:dana" (hash genesis_block) 2
    "0094909fdfa6d599d6a918c30d4820403b550989986020a0861e0fe162564fba".

Definition t_four : string := "2024-01-01 09:05:00.046508".

(** [grant editor bob] on the fresh ledger at difficulty 4, sealed at
    nonce 2. *)
Definition editor_bob_four_block : Block :=
  mkBlock 1 t_four "editor:bob" (hash genesis_block) 2
    "00000fe27e21a9318c9b1e7bb6e8ebe4629aa55f0633a3794bda1e9b5e927838".

Definition t_again : string := "2024-01-01 09:05:01.000059".

Definition editor_bob_again_block : Block :=
  mkBlock 2 t_again "editor:bob" (hash editor_bob_block) 1
    "008d79f019fc00a93c1a0345c7e69ee5ca365afcc6c60d0e1e2db2794b857871".

(** * The build and repair script

    The second script of the file: it audits five files of the project
    root, generates the ones that are missing, and is reached from the
    later [__main__] blocks, which dispatch between it and the ledger. *)

Module BuildRepair.

(** ** The project root *)

(** What is written to a file: text, or a value through
    [json.dump(value, f, indent=n)]. *)
Inductive fcontent : Type :=
| Text (s : string)
| Dumped (indent : nat) (j : json).

(** What is found at a path. *)
Inductive node : Type :=
| Missing
| Dir
| Reg (c : fcontent).

(** What is found at [src]; of a directory, only [process_data.py]
    matters. *)
Inductive src_node : Type :=
| SrcMissing
| SrcReg (c : fcontent)
| SrcDir (process_data_py : node).

Record project : Type := mkProject
  { render_yaml : node;
    requirements_txt : node;
    package_json : node;
    heady_manager_js : node;
    src : src_node }.

(** The ledger storage, the project root and the terminal. *)
Record site : Type := mkSite
  { ledger : storage;
    root : project;
    terminal : list string }.

(** The five audited paths, in the order of [required_files]. *)
Inductive path : Type :=
| RenderYaml
| RequirementsTxt
| PackageJson
| HeadyManagerJs
| ProcessDataPy.

Definition name (p : path) : string :=
  match p with
  | RenderYaml => "render.yaml"
  | RequirementsTxt => "requirements.txt"
  | PackageJson => "package.json"
  | HeadyManagerJs => "heady-manager.js"
  | ProcessDataPy => "src/process_data.py"
  end.

Definition required_files : list path :=
  [RenderYaml; RequirementsTxt; PackageJson; HeadyManagerJs; ProcessDataPy].

(** The node at a path; under a [src] that is not a directory there is
    nothing. *)
Definition lookup (pr : project) (p : path) : node :=
  match p with
  | RenderYaml => render_yaml pr
  | RequirementsTxt => requirements_txt pr
  | PackageJson => package_json pr
  | HeadyManagerJs => heady_manager_js pr
  | ProcessDataPy =>
      match src pr with
      | SrcDir n => n
      | SrcMissing | SrcReg _ => Missing
      end
  end.

(** [path.exists()] *)
Definition path_exists (pr : project) (p : path) : bool :=
  match lookup pr p with
  | Missing => false
  | Dir | Reg _ => true
  end.

(** ** Results *)

Inductive error : Type :=
| Py (e : exn)
| FileExistsError
| IsADirectoryError
| NotADirectoryError.

(** As [result], with the errors of the file system added. *)
Inductive outcome (A : Type) : Type :=
| Done (a : A)
| Failed (e : error)
| StillMining
| UntypedRecord.

Arguments Done {A} a.
Arguments Failed {A} e.
Arguments StillMining {A}.
Arguments UntypedRecord {A}.

Definition P (A : Type) : Type := site -> outcome (A * site).

Definition retP {A : Type} (a : A) : P A := fun s => Done (a, s).

Definition bindP {A B : Type} (m : P A) (f : A -> P B) : P B :=
  fun s =>
    match m s with
    | Done (a, s') => f a s'
    | Failed e => Failed e
    | StillMining => StillMining
    | UntypedRecord => UntypedRecord
    end.

Notation "m >>= f" := (bindP m f) (at level 58, left associativity).
Notation "m >> k" := (bindP m (fun _ => k)) (at level 58, left associativity).

(** A computation of the ledger, run on the ledger storage and the
    terminal of the site. *)
Definition lift {A : Type} (m : M A) : P A :=
  fun s =>
    match m (mkWorld (ledger s) (terminal s)) with
    | Ret (a, w) => Done (a, mkSite (disk w) (root s) (stdout w))
    | Raise e => Failed (Py e)
    | Running => StillMining
    | Untyped => UntypedRecord
    end.

(** [print(line)] *)
Definition printP (line : string) : P unit :=
  fun s => Done (tt, mkSite (ledger s) (root s) (terminal s ++ [line])).

(** [if cond: body] *)
Definition when (cond : bool) (body : P unit) : P unit :=
  if cond then body else retP tt.

(** [with open(path, 'w') as f: ...] on a node: a missing file is
    created, a regular file is replaced, a directory cannot be
    opened. *)
Definition write_node (n : node) (c : fcontent) : outcome node :=
  match n with
  | Missing | Reg _ => Done (Reg c)
  | Dir => Failed IsADirectoryError
  end.

Definition set_node (pr : project) (p : path) (n : node) : project :=
  match p with
  | RenderYaml =>
      mkProject n (requirements_txt pr) (package_json pr)
                (heady_manager_js pr) (src pr)
  | RequirementsTxt =>
      mkProject (render_yaml pr) n (package_json pr)
                (heady_manager_js pr) (src pr)
  | PackageJson =>
      mkProject (render_yaml pr) (requirements_txt pr) n
                (heady_manager_js pr) (src pr)
  | HeadyManagerJs =>
      mkProject (render_yaml pr) (requirements_txt pr) (package_json pr)
                n (src pr)
  | ProcessDataPy =>
      mkProject (render_yaml pr) (requirements_txt pr) (package_json pr)
                (heady_manager_js pr) (SrcDir n)
  end.

(** Opening a path of the project for writing and writing [c]; under
    [src] the directory has to be there. *)
Definition write_file (p : path) (c : fcontent) : P unit :=
  fun s =>
    match p, src (root s) with
    | ProcessDataPy, SrcMissing => Failed (Py FileNotFoundError)
    | ProcessDataPy, SrcReg _ => Failed NotADirectoryError
    | _, _ =>
        match write_node (lookup (root s) p) c with
        | Done n => Done (tt, mkSite (ledger s) (set_node (root s) p n)
                                     (terminal s))
        | Failed e => Failed e
        | StillMining => StillMining
        | UntypedRecord => UntypedRecord
        end
    end.

(** [src_dir.mkdir(exist_ok=True)] *)
Definition mkdir_src : P unit :=
  fun s =>
    match src (root s) with
    | SrcMissing =>
        Done (tt, mkSite (ledger s)
                    (mkProject (render_yaml (root s)) (requirements_txt (root s))
                               (package_json (root s))
                               (heady_manager_js (root s)) (SrcDir Missing))
                    (terminal s))
    | SrcDir _ => Done (tt, s)
    | SrcReg _ => Failed FileExistsError
    end.

(** ** The texts *)

Definition nl : string := String (ascii_of_nat 10) EmptyString.

Definition dq : string := String (ascii_of_nat 34) EmptyString.

Definition dq3 : string := dq ++ dq ++ dq.

(** The lines, each followed by a line feed. *)
Definition unlines (ls : list string) : string :=
  String.concat EmptyString (map (fun l => l ++ nl) ls).

Definition requirements : list string :=
  [ "psycopg2-binary>=2.9.0";
    "python-dotenv>=1.0.0";
    "requests>=2.28.0";
    "flask>=2.0.0";
    "gunicorn>=21.0.0" ].

(** What [generate_requirements] writes: the header line, then
    ["\n".join(requirements)]. *)
Definition requirements_text : string :=
  "# HeadySystems Dependencies" ++ nl ++ String.concat nl requirements.

Definition package : json :=
  JObj [ ("name", JStr "heady-systems");
         ("version", JStr "1.0.0");
         ("description", JStr "HeadySystems MCP Manager");
         ("main", JStr "heady-manager.js");
         ("scripts",
          JObj [ ("start", JStr "node heady-manager.js");
                 ("build", JStr "echo 'No build step required'");
                 ("dev", JStr "node --watch heady-manager.js") ]);
         ("dependencies",
          JObj [ ("express", JStr "^4.18.2");
                 ("cors", JStr "^2.8.5");
                 ("dockerode", JStr "^4.0.0");
                 ("@modelcontextprotocol/sdk", JStr "^1.0.0");
                 ("dotenv", JStr "^16.3.1") ]) ].

(** [js_code], the text of [heady-manager.js]. *)
Definition js_code : string :=
  unlines
    [ "// heady-manager.js - HeadySystems MCP Manager";
      "require('dotenv').config();";
      "const express = require('express');";
      "const cors = require('cors');";
      "const Docker = require('dockerode');";
      "const os = require('os');";
      EmptyString;
      "const app = express();";
      "const PORT = process.env.PORT || 3000;";
      EmptyString;
      "// Cross-platform Docker socket";
      "const dockerSocket = os.platform() === 'win32' ";
      "    ? '//./pipe/docker_engine' ";
      "    : '/var/run/docker.sock';";
      EmptyString;
      "let docker;";
      "try {";
      "    docker = new Docker({ socketPath: dockerSocket });";
      "} catch (e) {";
      "    console.warn('Docker not available:', e.message);";
      "    docker = null;";
      "}";
      EmptyString;
      "app.use(cors());";
      "app.use(express.json());";
      EmptyString;
      "app.get('/health', (req, res) => res.json({ status: 'ok', timestamp: new Date() }));";
      EmptyString;
      "app.get('/containers', async (req, res) => {";
      "    if (!docker) return res.status(503).json({ error: 'Docker unavailable' });";
      "    try {";
      "        const containers = await docker.listContainers({ all: true });";
      "        res.json(containers);";
      "    } catch (e) {";
      "        res.status(500).json({ error: e.message });";
      "    }";
      "});";
      EmptyString;
      "app.listen(PORT, () => console.log(`HeadyManager listening on port ${PORT}`));" ].

(** [py_code], the text of [src/process_data.py]. *)
Definition py_code : string :=
  unlines
    [ dq3;
      "process_data.py - HeadySystems Data Processor";
      "Handles database connections and data processing.";
      dq3;
      "import os";
      "import sys";
      EmptyString;
      "def get_database_url():";
      ("    " ++ dq3 ++ "Safely retrieve DATABASE_URL with fallback." ++ dq3)%string;
      "    url = os.environ.get('DATABASE_URL')";
      "    if not url:";
      ("        print(" ++ dq ++ "[WARN] DATABASE_URL not set, using local fallback" ++ dq ++ ")")%string;
      ("        return " ++ dq ++ "postgresql://localhost:5432/heady_dev" ++ dq)%string;
      "    return url";
      EmptyString;
      "def connect_database():";
      ("    " ++ dq3 ++ "Establish database connection with error handling." ++ dq3)%string;
      "    try:";
      "        import psycopg2";
      "        url = get_database_url()";
      "        conn = psycopg2.connect(url)";
      ("        print(" ++ dq ++ "[OK] Database connected" ++ dq ++ ")")%string;
      "        return conn";
      "    except ImportError:";
      ("        print(" ++ dq ++ "[ERROR] psycopg2 not installed" ++ dq ++ ")")%string;
      "        return None";
      "    except Exception as e:";
      ("        print(f" ++ dq ++ "[ERROR] Database connection failed: {e}" ++ dq ++ ")")%string;
      "        return None";
      EmptyString;
      "def process():";
      ("    " ++ dq3 ++ "Main processing entry point." ++ dq3)%string;
      "    conn = connect_database()";
      "    if conn:";
      ("        print(" ++ dq ++ "Processing data..." ++ dq ++ ")")%string;
      "        conn.close()";
      "    return conn is not None";
      EmptyString;
      ("if __name__ == " ++ dq ++ "__main__" ++ dq ++ ":")%string;
      "    sys.exit(0 if process() else 1)" ].

(** [yaml_content], the text of [render.yaml]. *)
Definition yaml_content : string :=
  unlines
    [ "# render.yaml - HeadySystems Deployment Blueprint";
      "services:";
      "  - type: web";
      "    name: heady-manager";
      "    env: node";
      "    buildCommand: npm install";
      "    startCommand: npm start";
      "    envVars:";
      "      - key: NODE_ENV";
      "        value: production";
      EmptyString;
      "  - type: worker";
      "    name: heady-processor";
      "    env: python";
      "    buildCommand: pip install -r requirements.txt";
      "    startCommand: python src/process_data.py";
      "    envVars:";
      "      - key: DATABASE_URL";
      "        fromDatabase:";
      "          name: heady-db";
      "          property: connectionString";
      EmptyString;
      "databases:";
      "  - name: heady-db";
      "    plan: free" ].

(** ** The functions *)

(** The loop of [audit_infrastructure] over the files still to visit,
    [missing] being the list built so far. *)
Fixpoint audit_loop (files : list path) (missing : list string)
  : P (list string) :=
  match files with
  | [] => retP missing
  | f :: rest =>
      fun s =>
        if path_exists (root s) f
        then (printP ("[OK] " ++ name f) >> audit_loop rest missing) s
        else (printP ("[MISSING] " ++ name f)
              >> audit_loop rest (missing ++ [name f])) s
  end.

Definition audit_infrastructure : P (list string) :=
  audit_loop required_files [].

Definition generate_requirements : P unit :=
  write_file RequirementsTxt (Text requirements_text)
  >> printP "[GENERATED] requirements.txt".

Definition generate_package_json : P unit :=
  write_file PackageJson (Dumped 2 package)
  >> printP "[GENERATED] package.json".

Definition generate_heady_manager : P unit :=
  write_file HeadyManagerJs (Text js_code)
  >> printP "[GENERATED] heady-manager.js".

Definition generate_process_data : P unit :=
  mkdir_src
  >> write_file ProcessDataPy (Text py_code)
  >> printP "[GENERATED] src/process_data.py".

Definition generate_render_yaml : P unit :=
  write_file RenderYaml (Text yaml_content)
  >> printP "[GENERATED] render.yaml".

(** [x in missing] *)
Definition mem (x : string) (l : list string) : bool :=
  existsb (String.eqb x) l.

Definition run_build_repair : P unit :=
  printP (str_repeat "=" 50)
  >> printP "HeadySystems Build & Repair Cycle"
  >> printP (str_repeat "=" 50)
  >> printP (nl ++ "[STEP 1] Infrastructure Audit")
  >> audit_infrastructure
  >>= fun missing =>
  printP (nl ++ "[STEP 2] Dependency Resolution")
  >> when (mem "requirements.txt" missing) generate_requirements
  >> when (mem "package.json" missing) generate_package_json
  >> printP (nl ++ "[STEP 3] Code Repair")
  >> when (mem "heady-manager.js" missing) generate_heady_manager
  >> when (mem "src/process_data.py" missing) generate_process_data
  >> when (mem "render.yaml" missing) generate_render_yaml
  >> printP (nl ++ "[STEP 4] Build Simulation")
  >> printP "Ready for: git add . && git commit -m 'Build repair' && git push"
  >> printP (nl ++ "[COMPLETE] Project ready for Render deployment").

(** ** The entry points that dispatch *)

Definition usage_all : string :=
  "Usage: python Heady_Chain.py <build|grant|verify> [args]".

Definition usage_grant : string :=
  "Usage: python Heady_Chain.py grant <role> <user>".

Definition usage_verify : string :=
  "Usage: python Heady_Chain.py verify <role> <user>".

(** [cmd in ("grant", "verify")], for the [cmd] that is [None] without
    a second word. *)
Definition is_chain_verb (cmd : option string) : bool :=
  match cmd with
  | Some c => String.eqb c "grant" || String.eqb c "verify"
  | None => false
  end.

Definition cmd_is (cmd : option string) (verb : string) : bool :=
  match cmd with
  | Some c => String.eqb c verb
  | None => false
  end.

(** The last [__main__] block of the file. *)
Definition main (fuel : nat) (t0 t1 : string) (argv : list string) : P unit :=
  let cmd := nth_error argv 1 in
  if is_chain_verb cmd then
    lift (HeadyChain_init t0) >>= fun hc =>
    if cmd_is cmd "grant" then
      if (4 <=? List.length argv)%nat
      then lift (add fuel t1 (arg argv 2) (arg argv 3) hc) >> retP tt
      else printP usage_grant
    else if cmd_is cmd "verify" then
      if (4 <=? List.length argv)%nat
      then printP (if verify (arg argv 2) (arg argv 3) hc
                   then "ACCESS GRANTED" else "DENIED")
      else printP usage_verify
    else retP tt
  else if cmd_is cmd "build" then run_build_repair
  else match cmd with
       | None => run_build_repair
       | Some _ => printP usage_all
       end.

(** The [__main__] block before it, which tests the length first and
    has one usage line for both ledger verbs. *)
Definition main_length_first (fuel : nat) (t0 t1 : string)
  (argv : list string) : P unit :=
  if (2 <=? List.length argv)%nat then
    let cmd := arg argv 1 in
    if String.eqb cmd "build" then run_build_repair
    else if String.eqb cmd "grant" || String.eqb cmd "verify" then
      lift (HeadyChain_init t0) >>= fun hc =>
      if String.eqb cmd "grant" && (4 <=? List.length argv)%nat then
        lift (add fuel t1 (arg argv 2) (arg argv 3) hc) >> retP tt
      else if String.eqb cmd "verify" && (4 <=? List.length argv)%nat then
        printP (if verify (arg argv 2) (arg argv 3) hc
                then "ACCESS GRANTED" else "DENIED")
      else printP usage_line
    else printP usage_all
  else run_build_repair.

End BuildRepair.

(** The [__main__] block of the ledger, under a name that stays apart
    from the entry points of [BuildRepair]. *)
Definition ledger_main : nat -> string -> string -> list string -> M unit :=
  main.

(** What [run_build_repair] generates at each path. *)
Definition generated (p : BuildRepair.path) : BuildRepair.fcontent :=
  match p with
  | BuildRepair.RenderYaml => BuildRepair.Text BuildRepair.yaml_content
  | BuildRepair.RequirementsTxt =>
      BuildRepair.Text BuildRepair.requirements_text
  | BuildRepair.PackageJson => BuildRepair.Dumped 2 BuildRepair.package
  | BuildRepair.HeadyManagerJs => BuildRepair.Text BuildRepair.js_code
  | BuildRepair.ProcessDataPy => BuildRepair.Text BuildRepair.py_code
  end.

(** The line [audit_infrastructure] prints for a path. *)
Definition audit_line (pr : BuildRepair.project) (p : BuildRepair.path)
  : string :=
  (if BuildRepair.path_exists pr p then "[OK] " else "[MISSING] ")
  ++ BuildRepair.name p.

(** A project root with nothing in it, and a site around it. *)
Definition empty_project : BuildRepair.project :=
  BuildRepair.mkProject BuildRepair.Missing BuildRepair.Missing
    BuildRepair.Missing BuildRepair.Missing BuildRepair.SrcMissing.

Definition empty_site : BuildRepair.site :=
  BuildRepair.mkSite NoDir empty_project [].

(** A project root where [src] is a regular file. *)
Definition blocked_project : BuildRepair.project :=
  BuildRepair.mkProject BuildRepair.Missing BuildRepair.Dir
    BuildRepair.Missing BuildRepair.Missing
    (BuildRepair.SrcReg (BuildRepair.Text "not a directory")).

(** Computations that leave the ledger storage alone and only add
    lines to the terminal. *)
Definition appends {A : Type} (m : BuildRepair.P A) : Prop :=
  forall (s : BuildRepair.site) (a : A) (s' : BuildRepair.site),
    m s = BuildRepair.Done (a, s') ->
    BuildRepair.ledger s' = BuildRepair.ledger s /\ exists out, BuildRepair.terminal s' = (BuildRepair.terminal s ++ out)%list.


(** What a first run on the empty project root leaves. *)
Definition repaired_project : BuildRepair.project :=
  BuildRepair.mkProject
    (BuildRepair.Reg (generated BuildRepair.RenderYaml))
    (BuildRepair.Reg (generated BuildRepair.RequirementsTxt))
    (BuildRepair.Reg (generated BuildRepair.PackageJson))
    (BuildRepair.Reg (generated BuildRepair.HeadyManagerJs))
    (BuildRepair.SrcDir (BuildRepair.Reg (generated BuildRepair.ProcessDataPy))).

Definition repaired_site : BuildRepair.site :=
  BuildRepair.mkSite NoDir repaired_project
    [ str_repeat "=" 50;
      "HeadySystems Build & Repair Cycle";
      str_repeat "=" 50;
      (BuildRepair.nl ++ "[STEP 1] Infrastructure Audit")%string;
      "[MISSING] render.yaml";
      "[MISSING] requirements.txt";
      "[MISSING] package.json";
      "[MISSING] heady-manager.js";
      "[MISSING] src/process_data.py";
      (BuildRepair.nl ++ "[STEP 2] Dependency Resolution")%string;
      "[GENERATED] requirements.txt";
      "[GENERATED] package.json";
      (BuildRepair.nl ++ "[STEP 3] Code Repair")%string;
      "[GENERATED] heady-manager.js";
      "[GENERATED] src/process_data.py";
      "[GENERATED] render.yaml";
      (BuildRepair.nl ++ "[STEP 4] Build Simulation")%string;
      "Ready for: git add . && git commit -m 'Build repair' && git push";
      (BuildRepair.nl ++ "[COMPLETE] Project ready for Render deployment")%string ].

(** * Properties *)

(** ** The digest primitive on the standard test vectors *)

Example sha256_hex_empty :
  sha256_hex ""
  = "e3b0c44298fc1c149afbf4c8996fb92427ae41e4649b934ca495991b7852b855".
Proof. vm_compute. reflexivity. Qed.

Example sha256_hex_abc :
  sha256_hex "abc"
  = "ba7816bf8f01cfea414140de5dae2223b00361a396177a9cb410ff61f20015ad".
Proof. vm_compute. reflexivity. Qed.

Example sha256_hex_two_blocks :
  sha256_hex "abcdbcdecdefdefgefghfghighijhijkijkljklmklmnlmnomnopnopq"
  = "248d6a61d20638b8e5c026930c3e6039a33ce45964ff2167f6ecedd419db06c1".
Proof. vm_compute. reflexivity. Qed.

Example SHA256_constants :
  List.length SHA256.K = 64%nat /\
  nth 0 SHA256.K 0 = 0x428a2f98 /\ nth 63 SHA256.K 0 = 0xc67178f2 /\
  nth 0 SHA256.H0 0 = 0x6a09e667 /\ nth 7 SHA256.H0 0 = 0x5be0cd19.
Proof. repeat split. Qed.

(** ** Strings *)

Lemma prefix_app (p t : string) : String.prefix p (p ++ t) = true.
Proof.
  induction p as [|c p IH]; simpl.
  - destruct t; reflexivity.
  - destruct (ascii_dec c c) as [_|ne]; [exact IH | contradiction].
Qed.

Lemma prefix_inv (p s : string) :
  String.prefix p s = true -> exists t, s = p ++ t.
Proof.
  revert s; induction p as [|c p IH]; intros s H.
  - exists s; reflexivity.
  - destruct s as [|c' s]; simpl in H; [discriminate|].
    destruct (ascii_dec c c') as [->|_]; [|discriminate].
    destruct (IH _ H) as [t ->]. exists t; reflexivity.
Qed.

Lemma startswith_iff (s p : string) :
  startswith s p = true <-> exists t, s = p ++ t.
Proof.
  unfold startswith; split.
  - apply prefix_inv.
  - intros [t ->]. apply prefix_app.
Qed.

Lemma append_assoc (a b c : string) : (a ++ b) ++ c = a ++ (b ++ c).
Proof. induction a as [|x a IH]; simpl; [reflexivity | now rewrite IH]. Qed.

(** [contains] is substring containment. *)
Lemma contains_iff (needle hay : string) :
  contains needle hay = true <->
  exists pre post, hay = pre ++ needle ++ post.
Proof.
  induction hay as [|c hay IH].
  - cbn [contains]. rewrite orb_false_r. split.
    + intros H. destruct (prefix_inv _ _ H) as [t Ht].
      exists EmptyString, t. exact Ht.
    + intros [pre [post H]].
      destruct pre; [|discriminate]. simpl in H.
      destruct needle; [reflexivity | discriminate].
  - cbn [contains]. rewrite orb_true_iff, IH. split.
    + intros [H | [pre [post H]]].
      * destruct (prefix_inv _ _ H) as [t Ht].
        exists EmptyString, t. exact Ht.
      * exists (String c pre), post. simpl. now rewrite H.
    + intros [pre [post H]]. destruct pre as [|c' pre].
      * left. simpl in H. rewrite H. apply prefix_app.
      * right. simpl in H. injection H as _ H. now exists pre, post.
Qed.

(** A longer run of zeros at the head includes a shorter one. *)
Lemma startswith_zeros_le (h : string) (m n : nat) :
  (m <= n)%nat ->
  startswith h (str_repeat "0" n) = true ->
  startswith h (str_repeat "0" m) = true.
Proof.
  intros Hle. rewrite !startswith_iff. intros [t ->].
  replace n with (m + (n - m))%nat by lia.
  generalize (n - m)%nat as k. intros k.
  exists (str_repeat "0" k ++ t).
  induction m as [|m IH]; simpl.
  - reflexivity.
  - f_equal. apply IH. lia.
Qed.

(** ** Block: hashing and mining *)

Lemma Block_init_consistent (i : Z) (t d p : string) :
  consistent (Block_init i t d p).
Proof. reflexivity. Qed.

Lemma mine_step_consistent (b : Block) : consistent (mine_step b).
Proof. reflexivity. Qed.

Lemma mine_step_fields (b : Block) :
  index (mine_step b) = index b /\ timestamp (mine_step b) = timestamp b /\
  data (mine_step b) = data b /\ prev_hash (mine_step b) = prev_hash b /\
  nonce (mine_step b) = nonce b + 1.
Proof. repeat split. Qed.

(** What [mine] returns is sealed, is the argument after some number of
    turns of the loop, and none of the earlier turns was sealed. *)
Lemma mine_some (fuel difficulty : nat) (b b' : Block) :
  mine fuel difficulty b = Some b' ->
  sealed difficulty b' = true /\
  exists k, (k <= fuel)%nat /\ b' = Nat.iter k mine_step b.
Proof.
  revert b; induction fuel as [|fuel IH]; intros b; simpl;
    destruct (startswith (hash b) (str_repeat "0" difficulty)) eqn:E;
    intros H; try discriminate.
  - injection H as <-. split; [exact E|]. exists 0%nat. split; [lia | reflexivity].
  - injection H as <-. split; [exact E|]. exists 0%nat. split; [lia | reflexivity].
  - destruct (IH _ H) as [Hs [k [Hk ->]]]. split; [exact Hs|].
    exists (S k). split; [lia|].
    clear. induction k as [|k IHk]; simpl; [reflexivity | now rewrite IHk].
Qed.

Lemma iter_mine_step_fields (k : nat) (b : Block) :
  index (Nat.iter k mine_step b) = index b /\
  timestamp (Nat.iter k mine_step b) = timestamp b /\
  data (Nat.iter k mine_step b) = data b /\
  prev_hash (Nat.iter k mine_step b) = prev_hash b /\
  nonce (Nat.iter k mine_step b) = nonce b + Z.of_nat k.
Proof.
  induction k as [|k IH].
  - simpl. repeat split. lia.
  - destruct IH as (H1 & H2 & H3 & H4 & H5).
    change (Nat.iter (S k) mine_step b) with (mine_step (Nat.iter k mine_step b)).
    destruct (mine_step_fields (Nat.iter k mine_step b)) as (G1 & G2 & G3 & G4 & G5).
    repeat split; try congruence. rewrite G5, H5. lia.
Qed.

Lemma iter_mine_step_consistent (k : nat) (b : Block) :
  consistent b -> consistent (Nat.iter k mine_step b).
Proof.
  destruct k; [trivial|]. intros _. apply mine_step_consistent.
Qed.

(** The loop stops as soon as a sealed block comes up: with a sealed
    block [k] turns away, any fuel from [k] on makes [mine] return. *)
Lemma mine_returns (difficulty k : nat) :
  forall (b : Block) (fuel : nat),
    sealed difficulty (Nat.iter k mine_step b) = true ->
    (k <= fuel)%nat ->
    exists b', mine fuel difficulty b = Some b'.
Proof.
  induction k as [|k IH]; intros b fuel Hs Hle.
  - simpl in Hs. unfold sealed in Hs.
    destruct fuel; simpl; rewrite Hs; eauto.
  - destruct fuel as [|fuel]; [lia|]. simpl.
    destruct (startswith (hash b) (str_repeat "0" difficulty)); [eauto|].
    apply IH; [|lia].
    replace (Nat.iter k mine_step (mine_step b))
      with (Nat.iter (S k) mine_step b); [exact Hs|].
    clear. induction k as [|k IHk]; simpl; [reflexivity | now rewrite <- IHk].
Qed.

(** More fuel does not change what [mine] has returned. *)
Lemma mine_fuel_mono (difficulty : nat) (fuel fuel' : nat) (b b' : Block) :
  mine fuel difficulty b = Some b' -> (fuel <= fuel')%nat ->
  mine fuel' difficulty b = Some b'.
Proof.
  revert fuel' b; induction fuel as [|fuel IH]; intros fuel' b H Hle.
  - simpl in H.
    destruct (startswith (hash b) (str_repeat "0" difficulty)) eqn:E;
      [|discriminate].
    destruct fuel'; simpl; rewrite E; exact H.
  - destruct fuel' as [|fuel']; [lia|]. simpl in *.
    destruct (startswith (hash b) (str_repeat "0" difficulty)); [exact H|].
    apply IH; [exact H | lia].
Qed.

(** ** HeadyChain: the effect of [save] and [add] *)

Lemma last_block_snoc (l : list Block) (b : Block) :
  last_block (l ++ [b]) = Some b.
Proof. unfold last_block. now rewrite rev_app_distr. Qed.

Lemma last_block_none (l : list Block) : last_block l = None -> l = [].
Proof.
  unfold last_block. destruct (rev l) eqn:E; [|discriminate].
  intros _. apply (f_equal (@rev Block)) in E. now rewrite rev_involutive in E.
Qed.

Lemma last_block_some (l : list Block) :
  l <> [] -> exists p, last_block l = Some p.
Proof.
  intros H. destruct (last_block l) eqn:E; [eauto|].
  now apply last_block_none in E.
Qed.

Lemma save_ret (self : HeadyChain) (w : world) :
  disk w <> NoDir -> save self w = Ret (tt, saved (chain self) (stdout w)).
Proof.
  unfold save, write_ledger, saved. destruct (disk w); [contradiction | reflexivity..].
Qed.

Lemma save_inv (self : HeadyChain) (w : world) (r : unit * world) :
  save self w = Ret r ->
  disk w <> NoDir /\ r = (tt, saved (chain self) (stdout w)).
Proof.
  unfold save, write_ledger, saved.
  destruct (disk w); intros H; try discriminate;
    injection H as <-; split; (discriminate || reflexivity).
Qed.

(** Everything a returning [add] has done. *)
Lemma add_with_ret (difficulty fuel : nat) (now r u : string)
  (self self' : HeadyChain) (w w' : world) :
  add_with difficulty fuel now r u self w = Ret (self', w') ->
  exists p b',
    last_block (chain self) = Some p /\
    mine fuel difficulty (candidate p now r u) = Some b' /\
    self' = mkChain (chain self ++ [b']) /\
    disk w <> NoDir /\
    w' = saved (chain self ++ [b']) (stdout w ++ ["Mined: " ++ hash b']).
Proof.
  unfold add_with. destruct (last_block (chain self)) as [p|]; [|discriminate].
  fold (candidate p now r u).
  destruct (mine fuel difficulty (candidate p now r u)) as [b'|] eqn:Em;
    [|discriminate].
  unfold bind. destruct (save _ w) as [[[] w1]| | |] eqn:Es; try discriminate.
  apply save_inv in Es. destruct Es as [Hd Es]. injection Es as ->.
  unfold print, ret. simpl. intros H. injection H as <- <-.
  exists p, b'. auto 10.
Qed.

(** With a directory to write to, a parent block and a mining run that
    stops, [add] returns. *)
Lemma add_with_returns (difficulty fuel : nat) (now r u : string)
  (self : HeadyChain) (w : world) (p b' : Block) :
  last_block (chain self) = Some p ->
  mine fuel difficulty (candidate p now r u) = Some b' ->
  disk w <> NoDir ->
  add_with difficulty fuel now r u self w =
  Ret (mkChain (chain self ++ [b']),
       saved (chain self ++ [b']) (stdout w ++ ["Mined: " ++ hash b'])).
Proof.
  intros Hp Hm Hd. unfold add_with. rewrite Hp.
  fold (candidate p now r u). rewrite Hm.
  unfold bind. rewrite save_ret by exact Hd. reflexivity.
Qed.

(** The [Raise] results of [add]: an empty chain or an absent directory.
    The conversion errors are not among them; [block_str_error] and
    [dump_error] tell them. *)
Lemma add_with_raise (difficulty fuel : nat) (now r u : string)
  (self : HeadyChain) (w : world) (e : exn) :
  add_with difficulty fuel now r u self w = Raise e ->
  (chain self = [] /\ e = IndexError) \/
  (disk w = NoDir /\ e = FileNotFoundError).
Proof.
  unfold add_with. destruct (last_block (chain self)) as [p|] eqn:Ep.
  - destruct mine as [b'|]; [|discriminate].
    unfold bind, save, write_ledger. simpl.
    destruct (disk w); simpl; intros H; try discriminate.
    injection H as <-. right. split; reflexivity.
  - intros H. injection H as <-. left. split; [|reflexivity].
    now apply last_block_none.
Qed.

Lemma add_with_not_untyped (difficulty fuel : nat) (now r u : string)
  (self : HeadyChain) (w : world) :
  add_with difficulty fuel now r u self w <> Untyped.
Proof.
  unfold add_with. destruct (last_block (chain self)); [|discriminate].
  destruct mine; [|discriminate].
  unfold bind, save, write_ledger. destruct (disk w); discriminate.
Qed.

Example Block_init_genesis :
  Block_init 0 t_boot "Genesis" "0" = genesis_block.
Proof. vm_compute. reflexivity. Qed.

Example mine_editor_bob :
  mine 5 default_difficulty (candidate genesis_block t_grant "editor" "bob")
  = Some editor_bob_block.
Proof. vm_compute. reflexivity. Qed.

Example add_editor_bob :
  add 5 t_grant "editor" "bob" (mkChain [genesis_block])
      (saved [genesis_block] [])
  = Ret (mkChain [genesis_block; editor_bob_block],
         saved [genesis_block; editor_bob_block]
               ["Mined: 0061e2d3f35ec3a0261a0a90ab935f2934d4531b38681ff7dd4bf3f78947fede"]).
Proof.
  unfold add.
  rewrite (add_with_returns _ _ _ _ _ _ _ genesis_block editor_bob_block).
  - reflexivity.
  - reflexivity.
  - exact mine_editor_bob.
  - discriminate.
Qed.

(** ** Append *)

(** *** The conversions along the mining loop *)

Lemma int_str_ok_between (a z : Z) :
  0 <= a <= z -> int_str_ok z = true -> int_str_ok a = true.
Proof.
  unfold int_str_ok. rewrite !Z.ltb_lt.
  generalize (10 ^ int_max_str_digits)%Z. lia.
Qed.

(** The limit is not evaluated: the powers of ten are compared by their
    exponents. *)
Lemma int_str_ok_digit (z : Z) : -10 < z < 10 -> int_str_ok z = true.
Proof.
  intros H. unfold int_str_ok. apply Z.ltb_lt.
  assert (Hp : 10 ^ 1 <= 10 ^ int_max_str_digits).
  { apply Z.pow_le_mono_r; [lia|]. unfold int_max_str_digits. lia. }
  rewrite Z.pow_1_r in Hp. revert Hp.
  generalize (10 ^ int_max_str_digits)%Z. lia.
Qed.

Lemma int_str_ok_limit :
  int_str_ok (10 ^ int_max_str_digits - 1) = true /\
  int_str_ok (10 ^ int_max_str_digits - 1 + 1) = false.
Proof.
  unfold int_str_ok.
  assert (Hp : 0 < 10 ^ int_max_str_digits).
  { apply Z.pow_pos_nonneg; [lia|]. unfold int_max_str_digits. lia. }
  revert Hp. generalize (10 ^ int_max_str_digits)%Z. intros m Hm.
  split; [apply Z.ltb_lt | apply Z.ltb_ge]; lia.
Qed.

Lemma block_str_error_none (b : Block) :
  block_str_error b = None <->
  int_str_ok (index b) = true /\ int_str_ok (nonce b) = true /\
  has_surrogate (timestamp b) = false /\ has_surrogate (data b) = false /\
  has_surrogate (prev_hash b) = false.
Proof.
  unfold block_str_error.
  destruct (int_str_ok (index b)), (int_str_ok (nonce b)),
    (has_surrogate (timestamp b)), (has_surrogate (data b)),
    (has_surrogate (prev_hash b)); cbn; split;
    try discriminate; try tauto;
    intros (H1 & H2 & H3 & H4 & H5); discriminate.
Qed.

(** The nonce only grows along the loop, so a turn that Python formats
    and encodes comes after turns that it formats and encodes. *)
Lemma block_str_error_earlier (j k : nat) (b : Block) :
  0 <= nonce b -> (j <= k)%nat ->
  block_str_error (Nat.iter k mine_step b) = None ->
  block_str_error (Nat.iter j mine_step b) = None.
Proof.
  intros H0 Hjk. rewrite !block_str_error_none.
  destruct (iter_mine_step_fields k b) as (K1 & K2 & K3 & K4 & K5).
  destruct (iter_mine_step_fields j b) as (J1 & J2 & J3 & J4 & J5).
  rewrite K1, K2, K3, K4, K5, J1, J2, J3, J4, J5.
  intros (H1 & H2 & H3 & H4 & H5). repeat split; try assumption.
  apply (int_str_ok_between _ (nonce b + Z.of_nat k)); [lia | exact H2].
Qed.

(** The premise on the new block, field by field: the index after the
    tail's and the nonce reached are converted, and no surrogate is in
    the clock reading, in ["role:user"] or in the hash of the tail. *)
Lemma block_str_error_candidate (k : nat) (p : Block) (now r u : string) :
  block_str_error (Nat.iter k mine_step (candidate p now r u)) = None <->
  int_str_ok (index p + 1) = true /\ int_str_ok (Z.of_nat k) = true /\
  has_surrogate now = false /\ has_surrogate (r ++ ":" ++ u) = false /\
  has_surrogate (hash p) = false.
Proof.
  rewrite block_str_error_none.
  destruct (iter_mine_step_fields k (candidate p now r u))
    as (-> & -> & -> & -> & ->).
  reflexivity.
Qed.

Lemma dump_error_none (c : list Block) :
  dump_error c = None <->
  Forall (fun b => int_str_ok (index b) = true /\ int_str_ok (nonce b) = true) c.
Proof.
  unfold dump_error. rewrite Forall_forall.
  destruct (forallb _ c) eqn:E.
  - split; [|reflexivity]. intros _ b Hb.
    rewrite forallb_forall in E. apply andb_prop. exact (E b Hb).
  - split; [discriminate|]. intros H. exfalso.
    assert (E' : forallb (fun b => int_str_ok (index b) && int_str_ok (nonce b)) c
                 = true).
    { apply forallb_forall. intros b Hb. destruct (H b Hb) as [-> ->]. reflexivity. }
    congruence.
Qed.

(** A chain that [json.dump] writes, with one more block that
    [compute_hash] accepts, is a chain that [json.dump] writes. *)
Lemma dump_error_snoc (c : list Block) (b : Block) :
  dump_error c = None -> block_str_error b = None ->
  dump_error (c ++ [b]) = None.
Proof.
  rewrite !dump_error_none, block_str_error_none.
  intros Hc (H1 & H2 & _). apply Forall_app. split; [exact Hc|].
  constructor; [split; assumption | constructor].
Qed.

(** [mine] stops at a turn no later than any turn known to be sealed. *)
Lemma mine_within (difficulty k : nat) :
  forall (b : Block) (fuel : nat),
    sealed difficulty (Nat.iter k mine_step b) = true ->
    (k <= fuel)%nat ->
    exists j, (j <= k)%nat /\
              mine fuel difficulty b = Some (Nat.iter j mine_step b).
Proof.
  induction k as [|k IH]; intros b fuel Hs Hle.
  - simpl in Hs. unfold sealed in Hs. exists 0%nat. split; [lia|].
    destruct fuel; simpl; rewrite Hs; reflexivity.
  - destruct fuel as [|fuel]; [lia|]. simpl mine.
    destruct (startswith (hash b) (str_repeat "0" difficulty)).
    + exists 0%nat. split; [lia | reflexivity].
    + assert (Hit : forall n, Nat.iter n mine_step (mine_step b)
                              = Nat.iter (S n) mine_step b).
      { clear. induction n as [|n IHn]; simpl; [reflexivity | now rewrite IHn]. }
      destruct (IH (mine_step b) fuel) as (j & Hj & Hm); [|lia|].
      * rewrite Hit. exact Hs.
      * exists (S j). split; [lia|]. rewrite Hm, Hit. reflexivity.
Qed.

(** Where Python formats, encodes and dumps what the call meets, [add]
    returns as soon as a turn of the loop is sealed within the fuel, and
    the chain it leaves is again one that [json.dump] writes. *)
Lemma add_returns_within (fuel k : nat) (now r u : string)
  (self : HeadyChain) (w : world) (p : Block) :
  last_block (chain self) = Some p ->
  disk w <> NoDir ->
  dump_error (chain self) = None ->
  block_str_error (Nat.iter k mine_step (candidate p now r u)) = None ->
  sealed default_difficulty (Nat.iter k mine_step (candidate p now r u)) = true ->
  (k <= fuel)%nat ->
  exists self' w',
    add fuel now r u self w = Ret (self', w') /\
    dump_error (chain self') = None.
Proof.
  intros Hp Hd Hdump Hfmt Hs Hle.
  destruct (mine_within _ _ _ _ Hs Hle) as (j & Hj & Hm).
  eexists; eexists. split.
  - apply (add_with_returns _ _ _ _ _ _ _ _ _ Hp Hm Hd).
  - cbn [chain]. apply dump_error_snoc; [exact Hdump|].
    apply (block_str_error_earlier j k); [simpl; lia | exact Hj | exact Hfmt].
Qed.

(** The two calls that Python refuses although a parent block and a
    directory are there: a tail index of 4300 nines, and a role with a
    lone surrogate. *)
Example candidate_beyond_the_digits :
  block_str_error last_index_block = None /\
  block_str_error (candidate last_index_block t_grant "editor" "bob")
  = Some ValueError.
Proof.
  destruct int_str_ok_limit as [Hlast Hnext]. split.
  - apply block_str_error_none. cbn [last_index_block index nonce].
    split; [exact Hlast|]. split; [apply int_str_ok_digit; lia|].
    repeat split.
  - unfold block_str_error, candidate, Block_init.
    cbn [last_index_block index nonce timestamp data prev_hash set_hash].
    rewrite Hnext. reflexivity.
Qed.

Example candidate_with_surrogate :
  block_str_error (candidate genesis_block t_grant surrogate_role "bob")
  = Some UnicodeEncodeError.
Proof.
  unfold block_str_error, candidate, Block_init.
  cbn [index nonce timestamp data prev_hash set_hash].
  assert (Hi : int_str_ok (index genesis_block + 1) = true)
    by (apply int_str_ok_digit; cbn; lia).
  assert (Hn : int_str_ok 0 = true) by (apply int_str_ok_digit; lia).
  assert (Hd : has_surrogate (surrogate_role ++ ":" ++ "bob") = true)
    by reflexivity.
  rewrite Hi, Hn, Hd. cbn [andb negb].
  rewrite orb_true_r. reflexivity.
Qed.

(** The premises hold of the run used below: one block in the chain,
    and [grant editor bob] on it up to nonce 5. *)
Lemma dump_error_genesis : dump_error [genesis_block] = None.
Proof.
  apply dump_error_none. constructor; [|constructor].
  split; apply int_str_ok_digit; cbn; lia.
Qed.

Lemma block_str_error_editor_bob (k : nat) :
  (k <= 5)%nat ->
  block_str_error
    (Nat.iter k mine_step (candidate genesis_block t_grant "editor" "bob"))
  = None.
Proof.
  intros Hk. apply block_str_error_candidate.
  split; [apply int_str_ok_digit; cbn; lia|].
  split; [apply int_str_ok_digit; lia|].
  repeat split.
Qed.

(** C6. On a ledger whose chain is not empty, a returning
    [add(role, user)] has made the chain one block longer, the old chain
    followed by a new tail whose [data] is ["role:user"].  Where a
    directory is there to write to, [json.dump] converts the integers of
    the chain ([dump_error]), and [compute_hash] formats and encodes the
    new block up to the nonce that the fuel allows ([block_str_error]:
    no index or nonce beyond 4300 digits, no lone surrogate in the clock
    reading, in ["role:user"] or in the hash of the tail), [add] raises
    nothing, and it returns whenever the mining loop reaches a sealed
    block within the fuel, leaving a chain that [json.dump] converts. *)
Theorem add_append_monotone
  (fuel : nat) (now r u : string) (self : HeadyChain) (w : world) :
  chain self <> [] ->
  (forall (self' : HeadyChain) (w' : world),
      add fuel now r u self w = Ret (self', w') ->
      List.length (chain self') = S (List.length (chain self)) /\
      exists b, chain self' = (chain self ++ [b])%list /\
                last_block (chain self') = Some b /\
                data b = r ++ ":" ++ u) /\
  (disk w <> NoDir ->
   dump_error (chain self) = None ->
   (forall p : Block,
       last_block (chain self) = Some p ->
       block_str_error (Nat.iter fuel mine_step (candidate p now r u)) = None) ->
   (forall e, add fuel now r u self w <> Raise e) /\
   add fuel now r u self w <> Untyped /\
   (forall (p : Block) (k : nat),
       last_block (chain self) = Some p ->
       sealed default_difficulty
              (Nat.iter k mine_step (candidate p now r u)) = true ->
       (k <= fuel)%nat ->
       exists self' w',
         add fuel now r u self w = Ret (self', w') /\
         dump_error (chain self') = None)).
Proof.
  intros Hne. split.
  - intros self' w' H.
    apply add_with_ret in H. destruct H as (p & b' & _ & Hm & -> & _ & _).
    simpl. split.
    + rewrite length_app. simpl. lia.
    + exists b'. split; [reflexivity|]. split; [apply last_block_snoc|].
      apply mine_some in Hm. destruct Hm as [_ [k [_ ->]]].
      destruct (iter_mine_step_fields k (candidate p now r u)) as (_ & _ & Hd & _).
      rewrite Hd. reflexivity.
  - intros Hd Hdump Hfmt. split; [|split].
    + intros e H. apply add_with_raise in H.
      destruct H as [[H _] | [H _]]; contradiction.
    + apply add_with_not_untyped.
    + intros p k Hp Hs Hle.
      apply (add_returns_within fuel k now r u self w p Hp Hd Hdump); try assumption.
      apply (block_str_error_earlier k fuel); [simpl; lia | exact Hle |].
      exact (Hfmt p Hp).
Qed.

Lemma add_append_monotone_witness :
  [genesis_block] <> [] /\
  (add 5 t_grant "editor" "bob" (mkChain [genesis_block])
       (saved [genesis_block] [])
   = Ret (mkChain [genesis_block; editor_bob_block],
          saved [genesis_block; editor_bob_block]
                ["Mined: " ++ hash editor_bob_block]) /\
   List.length [genesis_block; editor_bob_block]
   = S (List.length [genesis_block]) /\
   exists b, [genesis_block; editor_bob_block] = ([genesis_block] ++ [b])%list /\
             last_block [genesis_block; editor_bob_block] = Some b /\
             data b = "editor" ++ ":" ++ "bob") /\
  (disk (saved [genesis_block] []) <> NoDir /\
   dump_error [genesis_block] = None /\
   block_str_error
     (Nat.iter 5 mine_step (candidate genesis_block t_grant "editor" "bob"))
   = None /\
   sealed default_difficulty
     (Nat.iter 3 mine_step (candidate genesis_block t_grant "editor" "bob"))
   = true /\
   (3 <= 5)%nat /\
   (forall e, add 5 t_grant "editor" "bob" (mkChain [genesis_block])
                  (saved [genesis_block] []) <> Raise e) /\
   exists self' w',
     add 5 t_grant "editor" "bob" (mkChain [genesis_block])
         (saved [genesis_block] []) = Ret (self', w') /\
     dump_error (chain self') = None).
Proof.
  assert (Hne : chain (mkChain [genesis_block]) <> []) by discriminate.
  assert (Hd : disk (saved [genesis_block] []) <> NoDir) by discriminate.
  assert (Hdump : dump_error (chain (mkChain [genesis_block])) = None)
    by exact dump_error_genesis.
  assert (Hfmt5 : block_str_error
                    (Nat.iter 5 mine_step
                       (candidate genesis_block t_grant "editor" "bob"))
                  = None)
    by (apply block_str_error_editor_bob; lia).
  assert (Hfmt : forall p : Block,
             last_block (chain (mkChain [genesis_block])) = Some p ->
             block_str_error
               (Nat.iter 5 mine_step (candidate p t_grant "editor" "bob"))
             = None).
  { intros p Hp. injection Hp as <-. exact Hfmt5. }
  assert (Hs : sealed default_difficulty
                 (Nat.iter 3 mine_step
                    (candidate genesis_block t_grant "editor" "bob")) = true)
    by (vm_compute; reflexivity).
  assert (Hle : (3 <= 5)%nat) by lia.
  pose proof (add_append_monotone 5 t_grant "editor" "bob"
                (mkChain [genesis_block]) (saved [genesis_block] []) Hne)
    as [Hret Hdir].
  split; [exact Hne|]. split.
  - split; [exact add_editor_bob|]. exact (Hret _ _ add_editor_bob).
  - split; [exact Hd|]. split; [exact Hdump|]. split; [exact Hfmt5|].
    split; [exact Hs|]. split; [exact Hle|].
    destruct (Hdir Hd Hdump Hfmt) as [Hraise [_ Hterm]].
    split; [exact Hraise|].
    exact (Hterm genesis_block 3%nat eq_refl Hs Hle).
Defined.

(** ** Genesis *)

(** C7. Constructing the ledger where [LEDGER_DIR] is absent creates the
    directory, and constructing it where the directory is there without
    [chain_head.json] falls back from [load] to [gen]; either way the
    chain has exactly one block, with index [0], previous hash ["0"],
    data ["Genesis"], the clock reading as timestamp, nonce [0] and the
    digest of these values as hash: the block is not mined.  The file
    then holds one record, with these six values under the six keys
    [index], [timestamp], [data], [prev_hash], [nonce] and [hash], and a
    ledger constructed on that file later has this block as its chain
    and leaves the file as it is. *)
Theorem genesis_on_absent_storage (now : string) (out : list string) :
  let h := sha256_hex ("0" ++ now ++ "Genesis" ++ "0" ++ "0") in
  let g := mkBlock 0 now "Genesis" "0" 0 h in
  let file :=
    File (Doc (JList [JObj [("index", JInt 0);
                            ("timestamp", JStr now);
                            ("data", JStr "Genesis");
                            ("prev_hash", JStr "0");
                            ("nonce", JInt 0);
                            ("hash", JStr h)]])) in
  HeadyChain_init now (mkWorld NoDir out) = Ret (mkChain [g], mkWorld file out) /\
  HeadyChain_init now (mkWorld NoFile out) = Ret (mkChain [g], mkWorld file out) /\
  (forall (later : string) (out' : list string),
      HeadyChain_init later (mkWorld file out')
      = Ret (mkChain [g], mkWorld file out')).
Proof.
  split; [reflexivity | split; [reflexivity|]].
  intros later out'. reflexivity.
Qed.

(** ** Persistence *)

Lemma load_block_vars (b : Block) : load_block (vars b) = Ret b.
Proof. destruct b. reflexivity. Qed.

Lemma load_blocks_vars (c : list Block) : load_blocks (map vars c) = Ret c.
Proof.
  induction c as [|b c IH]; [reflexivity|].
  cbn [map load_blocks]. now rewrite load_block_vars, IH.
Qed.

(** [load] on a file written by [save] returns the saved chain and
    leaves the world as it is, whatever chain [self] held before. *)
Lemma load_saved (now : string) (self : HeadyChain) (c : list Block)
  (out : list string) :
  load now self (saved c out) = Ret (mkChain c, saved c out).
Proof.
  unfold load, saved. cbn [disk py_iter]. now rewrite load_blocks_vars.
Qed.

Lemma HeadyChain_init_saved (now : string) (c : list Block)
  (out : list string) :
  HeadyChain_init now (saved c out) = Ret (mkChain c, saved c out).
Proof. apply (load_saved now (mkChain []) c out). Qed.



(** ** Chain linkage *)

Lemma last_block_inv (c : list Block) (p : Block) :
  last_block c = Some p -> exists c0, c = (c0 ++ [p])%list.
Proof.
  unfold last_block. destruct (rev c) as [|x l] eqn:E; [discriminate|].
  intros H. injection H as ->. exists (rev l).
  apply (f_equal (@rev Block)) in E. rewrite rev_involutive in E. exact E.
Qed.

Lemma linked_single (b : Block) : linked [b].
Proof. intros i p b' _ H. destruct i; discriminate. Qed.

Lemma linked_snoc (c : list Block) (p b : Block) :
  linked c -> last_block c = Some p ->
  prev_hash b = hash p -> index b = index p + 1 ->
  linked (c ++ [b]).
Proof.
  intros Hl Hp Hh Hi i p' b' H1 H2.
  assert (Hlen : (S i < List.length (c ++ [b]))%nat)
    by (apply nth_error_Some; congruence).
  rewrite length_app in Hlen. simpl in Hlen.
  destruct (Nat.eq_dec (S i) (List.length c)) as [E|NE].
  - rewrite nth_error_app2 in H2 by lia.
    replace (S i - List.length c)%nat with 0%nat in H2 by lia.
    injection H2 as <-.
    rewrite nth_error_app1 in H1 by lia.
    destruct (last_block_inv _ _ Hp) as [c0 ->].
    rewrite length_app in E. simpl in E.
    rewrite nth_error_app2 in H1 by lia.
    replace (i - List.length c0)%nat with 0%nat in H1 by lia.
    injection H1 as <-. split; assumption.
  - rewrite nth_error_app1 in H1 by lia.
    rewrite nth_error_app1 in H2 by lia.
    exact (Hl i p' b' H1 H2).
Qed.

(** The candidate block of [add], once mined, still points at its
    parent. *)
Lemma mined_candidate_links (fuel difficulty : nat) (p b' : Block)
  (now r u : string) :
  mine fuel difficulty (candidate p now r u) = Some b' ->
  prev_hash b' = hash p /\ index b' = index p + 1.
Proof.
  intros H. apply mine_some in H. destruct H as [_ [k [_ ->]]].
  destruct (iter_mine_step_fields k (candidate p now r u))
    as (Hi & _ & _ & Hp & _).
  rewrite Hi, Hp. split; reflexivity.
Qed.

Lemma HeadyChain_init_blank (now : string) (w : world) :
  blank (disk w) ->
  HeadyChain_init now w =
  Ret (mkChain [Block_init 0 now "Genesis" "0"],
       saved [Block_init 0 now "Genesis" "0"] (stdout w)).
Proof.
  destruct w as [d out]. simpl. intros [-> | [-> | ->]]; reflexivity.
Qed.

Lemma reachable_inv (self : HeadyChain) (w : world) :
  reachable self w -> ledger_inv self w.
Proof.
  induction 1 as [now w w' self Hb Hi
                 | now self0 self w0 w' out _ IH Hi
                 | fuel now r u self self' w w' _ IH Ha].
  - rewrite (HeadyChain_init_blank _ _ Hb) in Hi. injection Hi as <- <-.
    constructor.
    + reflexivity.
    + eexists; eexists. split; [reflexivity|]. auto.
    + apply linked_single.
    + constructor; [apply Block_init_consistent | constructor].
  - destruct IH as [Hd Hg Hl Hc].
    replace (mkWorld (disk w0) out) with (saved (chain self0) out) in Hi
      by (unfold saved; now rewrite Hd).
    rewrite HeadyChain_init_saved in Hi. injection Hi as <- <-.
    constructor; simpl; [reflexivity | assumption..].
  - destruct IH as [Hd Hg Hl Hc].
    apply add_with_ret in Ha.
    destruct Ha as (p & b' & Hp & Hm & -> & _ & ->).
    constructor.
    + reflexivity.
    + destruct Hg as (g & rest & Hch & H1 & H2 & H3 & H4).
      exists g, (rest ++ [b'])%list. simpl. rewrite Hch.
      split; [reflexivity|]. repeat (split; [assumption|]).
      apply Forall_app. split; [assumption|].
      constructor; [|constructor].
      apply mine_some in Hm. exact (proj1 Hm).
    + simpl. destruct (mined_candidate_links _ _ _ _ _ _ _ Hm) as [E1 E2].
      now apply linked_snoc with p.
    + simpl. apply Forall_app. split; [assumption|].
      constructor; [|constructor].
      apply mine_some in Hm. destruct Hm as [_ [k [_ ->]]].
      apply iter_mine_step_consistent, Block_init_consistent.
Qed.

(** C1. In every ledger state the program reaches (the constructor on
    storage that is blank or was left by an earlier run, then any number
    of [add] calls and restarts), each block at an index [i > 0] names as
    previous hash the hash of the block at [i - 1] and has the index of
    that block plus one. *)
Theorem chain_linkage_invariant (self : HeadyChain) (w : world) :
  reachable self w ->
  forall (i : nat) (b p : Block),
    (0 < i)%nat ->
    nth_error (chain self) i = Some b ->
    nth_error (chain self) (i - 1) = Some p ->
    prev_hash b = hash p /\ index b = index p + 1.
Proof.
  intros Hr i b p Hi Hb Hp.
  destruct (reachable_inv _ _ Hr) as [_ _ Hl _].
  destruct i as [|i]; [lia|].
  replace (S i - 1)%nat with i in Hp by lia.
  exact (Hl i p b Hp Hb).
Qed.

Lemma reachable_editor_bob :
  reachable (mkChain [genesis_block; editor_bob_block])
            (saved [genesis_block; editor_bob_block]
                   ["Mined: " ++ hash editor_bob_block]).
Proof.
  apply (reach_add 5 t_grant "editor" "bob" (mkChain [genesis_block])
                   _ (saved [genesis_block] [])).
  - apply (reach_boot t_boot fresh_world).
    + left. reflexivity.
    + rewrite HeadyChain_init_blank by (left; reflexivity).
      rewrite Block_init_genesis. reflexivity.
  - exact add_editor_bob.
Defined.

Lemma chain_linkage_invariant_witness :
  reachable (mkChain [genesis_block; editor_bob_block])
            (saved [genesis_block; editor_bob_block]
                   ["Mined: " ++ hash editor_bob_block]) /\
  (0 < 1)%nat /\
  prev_hash editor_bob_block = hash genesis_block /\
  index editor_bob_block = index genesis_block + 1.
Proof.
  split; [exact reachable_editor_bob|]. split; [lia|].
  exact (chain_linkage_invariant _ _ reachable_editor_bob 1
           editor_bob_block genesis_block (Nat.lt_0_succ 0)
           eq_refl eq_refl).
Defined.

(** ** Hash determinism *)

(** C8. [compute_hash] is the SHA-256 digest of the five fields [index],
    [timestamp], [data], [prev_hash], [nonce] written one after the other
    in that order, so it is a function of these five values alone (the
    [hash] field plays no part); the hash of a block just constructed is
    this digest of its fields, so is the hash of the block [mine]
    returns for it, and so is the hash of every block of a ledger the
    program reaches. *)
Theorem compute_hash_determinism :
  (forall b : Block,
      compute_hash b =
      sha256_hex (str_of_int (index b) ++ timestamp b ++ data b
                  ++ prev_hash b ++ str_of_int (nonce b))) /\
  (forall b1 b2 : Block,
      index b1 = index b2 -> timestamp b1 = timestamp b2 ->
      data b1 = data b2 -> prev_hash b1 = prev_hash b2 ->
      nonce b1 = nonce b2 ->
      compute_hash b1 = compute_hash b2) /\
  (forall (i : Z) (t d p : string),
      hash (Block_init i t d p) = compute_hash (Block_init i t d p)) /\
  (forall (fuel difficulty : nat) (i : Z) (t d p : string) (b' : Block),
      mine fuel difficulty (Block_init i t d p) = Some b' ->
      hash b' = compute_hash b') /\
  (forall (self : HeadyChain) (w : world),
      reachable self w ->
      forall b : Block, In b (chain self) -> hash b = compute_hash b).
Proof.
  split; [|split; [|split; [|split]]].
  - intros b. reflexivity.
  - intros b1 b2 Hi Ht Hd Hp Hn. unfold compute_hash, block_str.
    now rewrite Hi, Ht, Hd, Hp, Hn.
  - intros. apply Block_init_consistent.
  - intros fuel difficulty i t d p b' H.
    apply mine_some in H. destruct H as [_ [k [_ ->]]].
    apply iter_mine_step_consistent, Block_init_consistent.
  - intros self w Hr b Hin.
    destruct (reachable_inv _ _ Hr) as [_ _ _ Hc].
    rewrite Forall_forall in Hc. exact (Hc b Hin).
Qed.

Lemma compute_hash_determinism_witness :
  (mine 5 2 (Block_init 1 t_grant "editor:bob" (hash genesis_block))
   = Some editor_bob_block /\
   hash editor_bob_block = compute_hash editor_bob_block) /\
  (nonce forged_block = nonce (set_hash forged_block "tampered") /\
   compute_hash forged_block
   = compute_hash (set_hash forged_block "tampered")) /\
  (reachable (mkChain [genesis_block; editor_bob_block])
             (saved [genesis_block; editor_bob_block]
                    ["Mined: " ++ hash editor_bob_block]) /\
   In genesis_block [genesis_block; editor_bob_block] /\
   hash genesis_block = compute_hash genesis_block).
Proof.
  split; [split|split].
  - exact mine_editor_bob.
  - exact (proj1 (proj2 (proj2 (proj2 compute_hash_determinism)))
             5%nat 2%nat 1 t_grant "editor:bob" (hash genesis_block)
             editor_bob_block mine_editor_bob).
  - split; [reflexivity|].
    exact (proj1 (proj2 compute_hash_determinism)
             forged_block (set_hash forged_block "tampered")
             eq_refl eq_refl eq_refl eq_refl eq_refl).
  - split; [exact reachable_editor_bob|]. split; [left; reflexivity|].
    exact (proj2 (proj2 (proj2 (proj2 compute_hash_determinism)))
             _ _ reachable_editor_bob genesis_block
             (or_introl eq_refl)).
Defined.

(** ** Proof of work *)

(** C5. The block [add] has appended when it returns has a hash that
    starts with ["00"]; [add] does return, on a ledger with a parent
    block and a directory to write to, whenever some number [k] of turns
    of the mining loop reaches a sealed block and the fuel covers [k],
    provided Python converts what the call meets: the integers of the
    chain for [json.dump] ([dump_error]), and the new block at nonce [k]
    for [compute_hash] ([block_str_error]: an index and a nonce of at
    most 4300 digits, no lone surrogate in the clock reading, in
    ["role:user"] or in the hash of the parent); the chain it leaves is
    again one that [json.dump] converts.  And in every ledger state the
    program reaches, each block after the genesis block has a hash that
    starts with ["00"]. *)
Theorem add_proof_of_work :
  (forall (fuel : nat) (now r u : string) (self self' : HeadyChain)
          (w w' : world),
      add fuel now r u self w = Ret (self', w') ->
      exists b, chain self' = (chain self ++ [b])%list /\
                last_block (chain self') = Some b /\
                startswith (hash b) "00" = true) /\
  (forall (now r u : string) (self : HeadyChain) (w : world) (p : Block)
          (k fuel : nat),
      last_block (chain self) = Some p ->
      disk w <> NoDir ->
      dump_error (chain self) = None ->
      block_str_error (Nat.iter k mine_step (candidate p now r u)) = None ->
      sealed default_difficulty (Nat.iter k mine_step (candidate p now r u)) = true ->
      (k <= fuel)%nat ->
      exists self' w',
        add fuel now r u self w = Ret (self', w') /\
        dump_error (chain self') = None) /\
  (forall (self : HeadyChain) (w : world),
      reachable self w ->
      forall (i : nat) (b : Block),
        (0 < i)%nat -> nth_error (chain self) i = Some b ->
        startswith (hash b) "00" = true).
Proof.
  split; [|split].
  - intros fuel now r u self self' w w' H.
    apply add_with_ret in H. destruct H as (p & b' & _ & Hm & -> & _ & _).
    exists b'. simpl. split; [reflexivity|]. split; [apply last_block_snoc|].
    apply mine_some in Hm. exact (proj1 Hm).
  - intros now r u self w p k fuel Hp Hd Hdump Hfmt Hs Hle.
    exact (add_returns_within fuel k now r u self w p Hp Hd Hdump Hfmt Hs Hle).
  - intros self w Hr i b Hi Hb.
    destruct (reachable_inv _ _ Hr) as [_ (g & rest & Hc & _ & _ & _ & Hs) _ _].
    rewrite Hc in Hb. destruct i as [|i]; [lia|]. simpl in Hb.
    apply nth_error_In in Hb.
    rewrite Forall_forall in Hs. exact (Hs b Hb).
Qed.

Lemma add_proof_of_work_witness :
  (add 5 t_grant "editor" "bob" (mkChain [genesis_block])
       (saved [genesis_block] [])
   = Ret (mkChain [genesis_block; editor_bob_block],
          saved [genesis_block; editor_bob_block]
                ["Mined: " ++ hash editor_bob_block]) /\
   exists b, [genesis_block; editor_bob_block] = ([genesis_block] ++ [b])%list /\
             last_block [genesis_block; editor_bob_block] = Some b /\
             startswith (hash b) "00" = true) /\
  (last_block [genesis_block] = Some genesis_block /\
   disk (saved [genesis_block] []) <> NoDir /\
   dump_error [genesis_block] = None /\
   block_str_error
     (Nat.iter 3 mine_step (candidate genesis_block t_grant "editor" "bob"))
   = None /\
   sealed default_difficulty
     (Nat.iter 3 mine_step (candidate genesis_block t_grant "editor" "bob"))
   = true /\
   (3 <= 5)%nat /\
   exists self' w',
     add 5 t_grant "editor" "bob" (mkChain [genesis_block])
         (saved [genesis_block] []) = Ret (self', w') /\
     dump_error (chain self') = None) /\
  (reachable (mkChain [genesis_block; editor_bob_block])
             (saved [genesis_block; editor_bob_block]
                    ["Mined: " ++ hash editor_bob_block]) /\
   (0 < 1)%nat /\
   startswith (hash editor_bob_block) "00" = true).
Proof.
  assert (Hd : disk (saved [genesis_block] []) <> NoDir) by discriminate.
  assert (Hdump : dump_error (chain (mkChain [genesis_block])) = None)
    by exact dump_error_genesis.
  assert (Hfmt : block_str_error
                   (Nat.iter 3 mine_step
                      (candidate genesis_block t_grant "editor" "bob"))
                 = None)
    by (apply block_str_error_editor_bob; lia).
  assert (Hs : sealed default_difficulty
                 (Nat.iter 3 mine_step
                    (candidate genesis_block t_grant "editor" "bob")) = true)
    by (vm_compute; reflexivity).
  assert (Hle : (3 <= 5)%nat) by lia.
  split; [split|split].
  - exact add_editor_bob.
  - exact (proj1 add_proof_of_work 5%nat t_grant "editor" "bob"
             (mkChain [genesis_block]) _ (saved [genesis_block] []) _
             add_editor_bob).
  - split; [reflexivity|]. split; [exact Hd|]. split; [exact Hdump|].
    split; [exact Hfmt|]. split; [exact Hs|]. split; [exact Hle|].
    exact (proj1 (proj2 add_proof_of_work) t_grant "editor" "bob"
             (mkChain [genesis_block]) (saved [genesis_block] [])
             genesis_block 3%nat 5%nat eq_refl Hd Hdump Hfmt Hs Hle).
  - split; [exact reachable_editor_bob|]. split; [lia|].
    exact (proj2 (proj2 add_proof_of_work) _ _ reachable_editor_bob
             1%nat editor_bob_block (Nat.lt_0_succ 0) eq_refl).
Defined.

(** ** Lookup *)

Example HeadyChain_init_fresh :
  HeadyChain_init t_boot fresh_world
  = Ret (mkChain [genesis_block], saved [genesis_block] []).
Proof.
  rewrite HeadyChain_init_blank by (left; reflexivity).
  rewrite Block_init_genesis. reflexivity.
Qed.

Example add_admin_alice :
  add 5 t_admin "admin" "alice" (mkChain [genesis_block])
      (saved [genesis_block] [])
  = Ret (mkChain [genesis_block; admin_alice_block],
         saved [genesis_block; admin_alice_block]
               ["Mined: " ++ hash admin_alice_block]).
Proof.
  unfold add.
  rewrite (add_with_returns _ _ _ _ _ _ _ genesis_block admin_alice_block).
  - reflexivity.
  - reflexivity.
  - vm_compute. reflexivity.
  - discriminate.
Qed.

Lemma verify_scan_existsb (needle : string) (bs : list Block) :
  verify_scan needle bs = existsb (contains needle) (map data bs).
Proof.
  induction bs as [|b bs IH]; simpl; [reflexivity|].
  rewrite IH. now destruct (contains needle (data b)).
Qed.

Lemma verify_existsb (r u : string) (self : HeadyChain) :
  verify r u self
  = existsb (contains (r ++ ":" ++ u)) (map data (chain self)).
Proof.
  unfold verify. rewrite verify_scan_existsb, map_rev.
  generalize (map data (chain self)) as l. intros l.
  induction l as [|x l IH]; [reflexivity|].
  cbn [rev existsb]. rewrite existsb_app, IH. cbn [existsb].
  rewrite orb_false_r. apply orb_comm.
Qed.

(** C2. [verify(role, user)] is true exactly when the [data] of some
    block of the chain contains ["role:user"] as a substring; the scan
    tests the most recent block first and goes on to the older ones only
    when it does not match; two chains with the same payloads give the
    same answer, whatever their hashes; and on a fresh ledger to which
    only [grant admin alice] was applied, [verify("adm", "alice")] is
    false. *)
Theorem verify_substring_lookup :
  (forall (r u : string) (self : HeadyChain),
      verify r u self = true <->
      exists b pre post,
        In b (chain self) /\ data b = pre ++ (r ++ ":" ++ u) ++ post) /\
  (forall (r u : string) (c : list Block) (b : Block),
      verify r u (mkChain (c ++ [b])) =
      if contains (r ++ ":" ++ u) (data b) then true
      else verify r u (mkChain c)) /\
  (forall (r u : string) (self1 self2 : HeadyChain),
      map data (chain self1) = map data (chain self2) ->
      verify r u self1 = verify r u self2) /\
  (forall (fuel : nat) (t0 t1 : string) (out : list string)
          (self self' : HeadyChain) (w w' : world),
      HeadyChain_init t0 (mkWorld NoDir out) = Ret (self, w) ->
      add fuel t1 "admin" "alice" self w = Ret (self', w') ->
      verify "adm" "alice" self' = false).
Proof.
  split; [|split; [|split]].
  - intros r u self. rewrite verify_existsb, existsb_exists. split.
    + intros [s [Hin Hc]]. apply in_map_iff in Hin.
      destruct Hin as [b [<- Hin]].
      apply contains_iff in Hc. destruct Hc as [pre [post Hc]].
      now exists b, pre, post.
    + intros (b & pre & post & Hin & Hd). exists (data b). split.
      * now apply in_map.
      * apply contains_iff. now exists pre, post.
  - intros r u c b. unfold verify. cbn [chain].
    rewrite rev_app_distr. reflexivity.
  - intros r u self1 self2 H. now rewrite !verify_existsb, H.
  - intros fuel t0 t1 out self self' w w' Hi Ha.
    rewrite (HeadyChain_init_blank t0 (mkWorld NoDir out)) in Hi
      by (left; reflexivity).
    injection Hi as <- <-.
    apply add_with_ret in Ha. destruct Ha as (p & b' & Hp & Hm & -> & _ & _).
    injection Hp as <-.
    apply mine_some in Hm. destruct Hm as [_ [k [_ ->]]].
    rewrite verify_existsb. cbn [chain map app].
    destruct (iter_mine_step_fields k
                (candidate (Block_init 0 t0 "Genesis" "0") t1 "admin" "alice"))
      as (_ & _ & Hd & _).
    rewrite Hd. reflexivity.
Qed.

Lemma verify_substring_lookup_witness :
  HeadyChain_init t_boot (mkWorld NoDir [])
  = Ret (mkChain [genesis_block], saved [genesis_block] []) /\
  add 5 t_admin "admin" "alice" (mkChain [genesis_block])
      (saved [genesis_block] [])
  = Ret (mkChain [genesis_block; admin_alice_block],
         saved [genesis_block; admin_alice_block]
               ["Mined: " ++ hash admin_alice_block]) /\
  verify "adm" "alice" (mkChain [genesis_block; admin_alice_block]) = false /\
  verify "admin" "alice" (mkChain [genesis_block; admin_alice_block]) = true /\
  (map data [forged_block] = map data [set_hash forged_block "tampered"] /\
   verify "root" "mallory" (mkChain [forged_block])
   = verify "root" "mallory" (mkChain [set_hash forged_block "tampered"])).
Proof.
  split; [exact HeadyChain_init_fresh|]. split; [exact add_admin_alice|].
  split; [|split].
  - exact (proj2 (proj2 (proj2 verify_substring_lookup))
             5%nat t_boot t_admin [] _ _ _ _
             HeadyChain_init_fresh add_admin_alice).
  - apply (proj1 verify_substring_lookup).
    exists admin_alice_block, EmptyString, EmptyString.
    split; [right; left; reflexivity | reflexivity].
  - split; [reflexivity|].
    exact (proj1 (proj2 (proj2 verify_substring_lookup))
             "root" "mallory" (mkChain [forged_block])
             (mkChain [set_hash forged_block "tampered"]) eq_refl).
Defined.

(** ** Damaged ledger files *)

(** C4, as stated, fails: on a file whose record cannot be read, [load]
    raises [KeyError], which its [except] clause does not catch; there is
    no fallback to genesis, in [load] or in the constructor. *)
Lemma load_unreadable_record_raises :
  load_blocks [JObj [("index", JInt 0)]] = Raise (KeyError "timestamp") /\
  load t_boot (mkChain []) truncated_world = Raise (KeyError "timestamp") /\
  HeadyChain_init t_boot truncated_world = Raise (KeyError "timestamp") /\
  load t_boot (mkChain []) truncated_world
  <> gen t_boot (mkChain []) truncated_world.
Proof.
  split; [reflexivity|]. split; [reflexivity|]. split; [reflexivity|].
  discriminate.
Qed.

(** C4, amended.  When [chain_head.json] is missing from the ledger
    directory or [json.load] rejects its content, [load] falls back to
    [gen]: from the empty chain of the constructor the ledger is a single
    fresh genesis block and the file is overwritten with it.  When the
    content is valid JSON and the loop over it raises (a value that
    cannot be iterated, an element that is not an object, a record
    without one of the four keys), [load] raises that error and does not
    fall back. *)
Theorem load_fallback_to_genesis :
  (forall (now : string) (self : HeadyChain) (w : world),
      disk w = NoFile \/ disk w = File BadText ->
      load now self w = gen now self w /\
      (chain self = [] ->
       load now self w =
       Ret (mkChain [Block_init 0 now "Genesis" "0"],
            saved [Block_init 0 now "Genesis" "0"] (stdout w))) /\
      HeadyChain_init now w =
      Ret (mkChain [Block_init 0 now "Genesis" "0"],
           saved [Block_init 0 now "Genesis" "0"] (stdout w))) /\
  (forall (now : string) (self : HeadyChain) (w : world) (v : json) (e : exn),
      disk w = File (Doc v) ->
      py_iter v = Raise e \/
      (exists bs, py_iter v = Ret bs /\ load_blocks bs = Raise e) ->
      load now self w = Raise e).
Proof.
  split.
  - intros now self [d out] Hd. simpl in Hd. split; [|split].
    + destruct Hd as [-> | ->]; reflexivity.
    + destruct self as [c]. simpl. intros ->.
      destruct Hd as [-> | ->]; reflexivity.
    + apply HeadyChain_init_blank. simpl. unfold blank. tauto.
  - intros now self [d out] v e Hd H. simpl in Hd. subst d.
    unfold load. cbn [disk].
    destruct H as [-> | [bs [-> ->]]]; reflexivity.
Qed.

Lemma load_fallback_to_genesis_witness :
  (disk (mkWorld (File BadText) []) = NoFile \/
   disk (mkWorld (File BadText) []) = File BadText) /\
  load t_boot (mkChain []) (mkWorld (File BadText) [])
  = Ret (mkChain [Block_init 0 t_boot "Genesis" "0"],
         saved [Block_init 0 t_boot "Genesis" "0"] []) /\
  (py_iter truncated_record = Raise (KeyError "timestamp") \/
   (exists bs, py_iter truncated_record = Ret bs /\
               load_blocks bs = Raise (KeyError "timestamp"))) /\
  load t_boot (mkChain []) truncated_world = Raise (KeyError "timestamp").
Proof.
  assert (Hd : disk (mkWorld (File BadText) []) = NoFile \/
               disk (mkWorld (File BadText) []) = File BadText)
    by (right; reflexivity).
  assert (Hr : py_iter truncated_record = Raise (KeyError "timestamp") \/
               (exists bs, py_iter truncated_record = Ret bs /\
                           load_blocks bs = Raise (KeyError "timestamp")))
    by (right; eexists; split; reflexivity).
  split; [exact Hd|]. split; [|split; [exact Hr|]].
  - exact (proj1 (proj2 (proj1 load_fallback_to_genesis t_boot (mkChain [])
                           (mkWorld (File BadText) []) Hd)) eq_refl).
  - exact (proj2 load_fallback_to_genesis t_boot (mkChain [])
             truncated_world truncated_record _ eq_refl Hr).
Defined.

(** C10. A ledger file that holds the empty JSON list is accepted:
    [load], and so the constructor, return an empty chain, with no
    genesis block and the file left as it is; [add] on that ledger raises
    [IndexError] at [self.chain[-1]], whatever the fuel, the arguments
    and the world, and so appends nothing. *)
Theorem empty_list_ledger (now : string) (out : list string) :
  let w := mkWorld (File (Doc (JList []))) out in
  load now (mkChain []) w = Ret (mkChain [], w) /\
  HeadyChain_init now w = Ret (mkChain [], w) /\
  nth_error (chain (mkChain [])) 0 = None /\
  (forall (fuel : nat) (t r u : string) (w1 : world),
      add fuel t r u (mkChain []) w1 = Raise IndexError) /\
  (forall (fuel : nat) (t0 t1 r u : string),
      main fuel t0 t1 ["Heady_Chain.py"; "grant"; r; u] w = Raise IndexError).
Proof. repeat split. Qed.

(** ** The command line *)




(** ** The older revisions *)


(** So a mined block does not survive [save] and [load] there: the
    block of [grant editor bob] comes back unsealed. *)
Lemma FourFieldLoad_loses_seal :
  FourFieldLoad.load t_grant (mkChain [])
    (saved [genesis_block; editor_bob_block] [])
  = Ret (mkChain [genesis_block;
                  mkBlock 1 t_grant "editor:bob" (hash genesis_block) 0
                    "fae8fe6c10f4759db2cd52519907e68ac2b324258bfd6ed85cad97b7252ee03a"],
         saved [genesis_block; editor_bob_block] []).
Proof. vm_compute. reflexivity. Qed.

(** At difficulty 4 the appended block starts with four zeros, hence
    with two. *)
Lemma DifficultyFour_add_sealed (fuel : nat) (now r u : string)
  (self self' : HeadyChain) (w w' : world) :
  DifficultyFour.add fuel now r u self w = Ret (self', w') ->
  exists b, chain self' = (chain self ++ [b])%list /\
            startswith (hash b) "0000" = true /\
            startswith (hash b) "00" = true.
Proof.
  intros H. apply add_with_ret in H.
  destruct H as (p & b' & _ & Hm & -> & _ & _).
  exists b'. split; [reflexivity|].
  apply mine_some in Hm. destruct Hm as [Hs _].
  split; [exact Hs|].
  exact (startswith_zeros_le (hash b') 2 4 ltac:(lia) Hs).
Qed.

(** The loop test of the first revisions, [self.hash[:2] != "00"], is the
    test of [mine] at difficulty 2. *)
Lemma slice2_is_startswith (h : string) :
  String.eqb (substring 0 2 h) "00" = startswith h (str_repeat "0" 2).
Proof.
  assert (Z0 : forall t, substring 0 0 t = EmptyString) by (now intros []).
  apply eq_true_iff_eq. rewrite String.eqb_eq, startswith_iff. split.
  - destruct h as [|a [|b t]]; cbn [substring]; try discriminate.
    rewrite Z0. intros H. injection H as -> ->. now exists t.
  - intros [t ->]. cbn [str_repeat append substring]. now rewrite Z0.
Qed.

(** The first [__main__] block, run without a verb, never gets to print
    the usage line: once the constructor has returned, [sys.argv[1]]
    raises [IndexError]. *)
Lemma FirstMain_no_verb_raises (fuel : nat) (t0 t1 t2 : string)
  (argv : list string) (w : world) (hc : HeadyChain) (w1 : world) :
  (List.length argv < 2)%nat ->
  FirstMain.HeadyChain_init t0 w = Ret (hc, w1) ->
  FirstMain.main fuel t0 t1 t2 argv w = Raise IndexError.
Proof.
  intros Hlen Hi. unfold FirstMain.main, bind. rewrite Hi.
  unfold FirstMain.argv_get.
  replace (nth_error argv 1) with (@None string); [reflexivity|].
  symmetry. apply nth_error_None. lia.
Qed.

(** * Further properties of the ledger *)

(** ** The format of a digest *)

Lemma hex_of_word_length (n : nat) (w : Z) :
  String.length (SHA256.hex_of_word n w) = n.
Proof. induction n as [|n IH]; simpl; [reflexivity | now rewrite IH]. Qed.

Lemma string_length_app (a b : string) :
  String.length (a ++ b) = (String.length a + String.length b)%nat.
Proof. induction a as [|c a IH]; simpl; [reflexivity | now rewrite IH]. Qed.

Lemma hexdigest_of_words_length (h : list Z) :
  String.length (SHA256.hexdigest_of_words h) = (8 * List.length h)%nat.
Proof.
  unfold SHA256.hexdigest_of_words.
  induction h as [|w h IH]; [reflexivity|].
  cbn [fold_right List.length]. rewrite string_length_app, hex_of_word_length, IH.
  lia.
Qed.

Lemma absorb_length (n : nat) (h ws : list Z) :
  List.length h = 8%nat -> List.length (SHA256.absorb n h ws) = 8%nat.
Proof.
  revert h ws; induction n as [|n IH]; intros h ws Hh; simpl; [exact Hh|].
  destruct ws; [exact Hh|]. apply IH. reflexivity.
Qed.

Lemma sha256_hex_length (s : string) : String.length (sha256_hex s) = 64%nat.
Proof.
  change (sha256_hex s) with (SHA256.hexdigest s). unfold SHA256.hexdigest.
  rewrite hexdigest_of_words_length, absorb_length; reflexivity.
Qed.

Lemma hex_digit_is_hex (x : Z) : is_hex (SHA256.hex_digit (Z.land x 15)) = true.
Proof.
  assert (H : 0 <= Z.land x 15 < 16).
  { change 15 with (Z.ones 4). rewrite Z.land_ones by lia.
    apply Z.mod_pos_bound. lia. }
  destruct (Z.land x 15) as [|p|p]; [reflexivity| |lia].
  do 4 (destruct p as [p|p|]; try lia; try reflexivity).
Qed.

Lemma all_hex_app (a b : string) :
  all_hex (a ++ b) = all_hex a && all_hex b.
Proof. induction a as [|c a IH]; simpl; [reflexivity | now rewrite IH, andb_assoc]. Qed.

Lemma hex_of_word_all_hex (n : nat) (w : Z) :
  all_hex (SHA256.hex_of_word n w) = true.
Proof.
  induction n as [|n IH]; [reflexivity|].
  cbn [SHA256.hex_of_word all_hex]. now rewrite hex_digit_is_hex, IH.
Qed.

Lemma sha256_hex_all_hex (s : string) : all_hex (sha256_hex s) = true.
Proof.
  change (sha256_hex s) with (SHA256.hexdigest s). unfold SHA256.hexdigest.
  generalize (SHA256.absorb
                (List.length (SHA256.words_of_bytes
                                (SHA256.pad (SHA256.bytes_of_string s))))
                SHA256.H0
                (SHA256.words_of_bytes (SHA256.pad (SHA256.bytes_of_string s)))).
  intros h. unfold SHA256.hexdigest_of_words.
  induction h as [|w h IH]; [reflexivity|].
  cbn [fold_right]. now rewrite all_hex_app, hex_of_word_all_hex, IH.
Qed.

(** ** Mining *)

Lemma iter_succ_r_mine (k : nat) (b : Block) :
  Nat.iter (S k) mine_step b = Nat.iter k mine_step (mine_step b).
Proof. induction k as [|k IH]; simpl; [reflexivity | now rewrite <- IH]. Qed.

(** What [mine] returns is the first sealed block of the run of the
    loop: no earlier turn was sealed. *)
Lemma mine_least (fuel difficulty : nat) (b b' : Block) :
  mine fuel difficulty b = Some b' ->
  exists k, (k <= fuel)%nat /\ b' = Nat.iter k mine_step b /\
            sealed difficulty b' = true /\
            forall j, (j < k)%nat ->
                      sealed difficulty (Nat.iter j mine_step b) = false.
Proof.
  revert b; induction fuel as [|fuel IH]; intros b; simpl;
    destruct (startswith (hash b) (str_repeat "0" difficulty)) eqn:E;
    intros H; try discriminate.
  - injection H as <-. exists 0%nat. repeat split; [lia | exact E | lia].
  - injection H as <-. exists 0%nat. repeat split; [lia | exact E | lia].
  - destruct (IH _ H) as (k & Hk & -> & Hs & Hmin).
    exists (S k). split; [lia|]. split; [now rewrite iter_succ_r_mine|].
    split; [exact Hs|]. intros [|j] Hj; [exact E|].
    rewrite iter_succ_r_mine. apply Hmin. lia.
Qed.

(** The hash of a fresh block after [k] turns of the loop is the digest
    of its fields with [k] as the nonce. *)
Lemma iter_mine_step_Block_init (k : nat) (i : Z) (t d p : string) :
  let b := Nat.iter k mine_step (Block_init i t d p) in
  nonce b = Z.of_nat k /\
  hash b = sha256_hex (str_of_int i ++ t ++ d ++ p ++ str_of_int (Z.of_nat k)).
Proof.
  intros b.
  destruct (iter_mine_step_fields k (Block_init i t d p))
    as (Hi & Ht & Hd & Hp & Hn).
  fold b in Hi, Ht, Hd, Hp, Hn. simpl in Hi, Ht, Hd, Hp, Hn.
  split; [exact Hn|].
  assert (Hc : consistent b)
    by apply iter_mine_step_consistent, Block_init_consistent.
  rewrite Hc. unfold compute_hash, block_str.
  now rewrite Hi, Ht, Hd, Hp, Hn.
Qed.

(** X1. The block [mine] returns for a freshly constructed block carries
    the least nonce, counting from 0, at which the digest of the five
    fields starts with the required zeros; its hash is that digest, and
    the digest at every smaller nonce does not have the prefix. *)
Theorem mine_finds_least_nonce
  (fuel difficulty : nat) (i : Z) (t d p : string) (b' : Block) :
  mine fuel difficulty (Block_init i t d p) = Some b' ->
  let digest := fun n : Z =>
    sha256_hex (str_of_int i ++ t ++ d ++ p ++ str_of_int n) in
  0 <= nonce b' <= Z.of_nat fuel /\
  index b' = i /\ timestamp b' = t /\ data b' = d /\ prev_hash b' = p /\
  hash b' = digest (nonce b') /\
  startswith (digest (nonce b')) (str_repeat "0" difficulty) = true /\
  forall n : Z, 0 <= n < nonce b' ->
    startswith (digest n) (str_repeat "0" difficulty) = false.
Proof.
  intros H digest. apply mine_least in H.
  destruct H as (k & Hk & -> & Hs & Hmin).
  destruct (iter_mine_step_Block_init k i t d p) as [Hn Hh].
  destruct (iter_mine_step_fields k (Block_init i t d p))
    as (Hi & Ht & Hd & Hp & _).
  rewrite Hn. split; [lia|].
  split; [exact Hi|]. split; [exact Ht|]. split; [exact Hd|].
  split; [exact Hp|]. split; [exact Hh|]. split.
  - unfold sealed in Hs. now rewrite Hh in Hs.
  - intros n Hlt. specialize (Hmin (Z.to_nat n) ltac:(lia)).
    destruct (iter_mine_step_Block_init (Z.to_nat n) i t d p) as [_ Hh'].
    unfold sealed in Hmin. rewrite Hh' in Hmin.
    now rewrite Z2Nat.id in Hmin by lia.
Qed.

Lemma mine_finds_least_nonce_witness :
  mine 5 2 (Block_init 1 t_grant "editor:bob" (hash genesis_block))
  = Some editor_bob_block /\
  nonce editor_bob_block = 3 /\
  (forall n : Z, 0 <= n < 3 ->
     startswith (sha256_hex (str_of_int 1 ++ t_grant ++ "editor:bob"
                             ++ hash genesis_block ++ str_of_int n))
                (str_repeat "0" 2) = false).
Proof.
  split; [exact mine_editor_bob|]. split; [reflexivity|].
  exact (proj2 (proj2 (proj2 (proj2 (proj2 (proj2 (proj2
           (mine_finds_least_nonce 5 2 1 t_grant "editor:bob"
              (hash genesis_block) editor_bob_block mine_editor_bob)))))))).
Defined.

(** X2. [mine] does not look at anything but the prefix of the hash it
    is given: a block whose hash already has the prefix comes back
    unchanged, whether or not that hash is the digest of its fields; so
    mining what [mine] returned changes nothing, and at difficulty 0
    every block is returned as it is. *)
Theorem mine_sealed_is_noop :
  (forall (fuel difficulty : nat) (b : Block),
      startswith (hash b) (str_repeat "0" difficulty) = true ->
      mine fuel difficulty b = Some b) /\
  (forall (fuel fuel' difficulty : nat) (b b' : Block),
      mine fuel difficulty b = Some b' ->
      mine fuel' difficulty b' = Some b') /\
  (forall (fuel : nat) (b : Block), mine fuel 0 b = Some b).
Proof.
  assert (H1 : forall fuel difficulty b,
             startswith (hash b) (str_repeat "0" difficulty) = true ->
             mine fuel difficulty b = Some b).
  { intros fuel difficulty b H. destruct fuel; simpl; now rewrite H. }
  split; [exact H1|]. split.
  - intros fuel fuel' difficulty b b' H. apply H1.
    apply mine_some in H. exact (proj1 H).
  - intros fuel b. apply H1. unfold startswith. simpl.
    now destruct (hash b).
Qed.

Lemma mine_sealed_is_noop_witness :
  startswith (hash forged_block) (str_repeat "0" 2) = true /\
  hash forged_block <> compute_hash forged_block /\
  mine 0 2 forged_block = Some forged_block /\
  mine 0 2 editor_bob_block = Some editor_bob_block.
Proof.
  split; [reflexivity|]. split; [vm_compute; discriminate|]. split.
  - exact (proj1 mine_sealed_is_noop 0%nat 2%nat forged_block eq_refl).
  - exact (proj1 (proj2 mine_sealed_is_noop) 5%nat 0%nat 2%nat _ _
             mine_editor_bob).
Defined.

(** ** Granting and looking up *)

Example add_viewer_carol :
  add 5 t_carol "viewer" "carol"
      (mkChain [genesis_block; editor_bob_block])
      (saved [genesis_block; editor_bob_block] [])
  = Ret (mkChain [genesis_block; editor_bob_block; viewer_carol_block],
         saved [genesis_block; editor_bob_block; viewer_carol_block]
               ["Mined: " ++ hash viewer_carol_block]).
Proof.
  unfold add.
  rewrite (add_with_returns _ _ _ _ _ _ _ editor_bob_block viewer_carol_block).
  - reflexivity.
  - reflexivity.
  - vm_compute. reflexivity.
  - discriminate.
Qed.

Lemma append_nil_r (s : string) : s ++ EmptyString = s.
Proof. induction s as [|c s IH]; simpl; [reflexivity | now rewrite IH]. Qed.

Lemma verify_true_iff (r u : string) (self : HeadyChain) :
  verify r u self = true <->
  exists b, In b (chain self) /\ contains (r ++ ":" ++ u) (data b) = true.
Proof.
  rewrite verify_existsb, existsb_exists. split.
  - intros [s [Hin Hc]]. apply in_map_iff in Hin.
    destruct Hin as [b [<- Hin]]. now exists b.
  - intros [b [Hin Hc]]. exists (data b). split; [now apply in_map | exact Hc].
Qed.

(** The data of the block a returning [add] has appended. *)
Lemma add_with_data (difficulty fuel : nat) (now r u : string)
  (self self' : HeadyChain) (w w' : world) :
  add_with difficulty fuel now r u self w = Ret (self', w') ->
  exists b, chain self' = (chain self ++ [b])%list /\
            data b = r ++ ":" ++ u.
Proof.
  intros H. apply add_with_ret in H.
  destruct H as (p & b' & _ & Hm & -> & _ & _).
  exists b'. split; [reflexivity|].
  apply mine_some in Hm. destruct Hm as [_ [k [_ ->]]].
  destruct (iter_mine_step_fields k (candidate p now r u)) as (_ & _ & Hd & _).
  exact Hd.
Qed.

(** X3. What is granted can be looked up, and more than that: after
    [add(role, user)] has returned, [verify(r, u)] is true for every [r]
    that [role] ends with and every [u] that [user] starts with, the
    whole of [role] and [user] among them. *)
Theorem add_then_verify
  (fuel : nat) (now pre r u post : string) (self self' : HeadyChain)
  (w w' : world) :
  add fuel now (pre ++ r) (u ++ post) self w = Ret (self', w') ->
  verify r u self' = true.
Proof.
  intros H. apply add_with_data in H. destruct H as (b & Hc & Hd).
  apply verify_true_iff. exists b. split.
  - rewrite Hc. apply in_or_app. right. left. reflexivity.
  - apply contains_iff. exists pre, post. rewrite Hd.
    now rewrite !append_assoc.
Qed.

Lemma add_then_verify_witness :
  add 5 t_admin ("ad" ++ "min") ("al" ++ "ice") (mkChain [genesis_block])
      (saved [genesis_block] [])
  = Ret (mkChain [genesis_block; admin_alice_block],
         saved [genesis_block; admin_alice_block]
               ["Mined: " ++ hash admin_alice_block]) /\
  verify "min" "al" (mkChain [genesis_block; admin_alice_block]) = true.
Proof.
  split; [exact add_admin_alice|].
  exact (add_then_verify 5 t_admin "ad" "min" "al" "ice" _ _ _ _
           add_admin_alice).
Defined.

(** X4. There is no revocation: a lookup that succeeds keeps succeeding
    after any further [add]. *)
Theorem verify_survives_add
  (fuel : nat) (now r u r' u' : string) (self self' : HeadyChain)
  (w w' : world) :
  verify r u self = true ->
  add fuel now r' u' self w = Ret (self', w') ->
  verify r u self' = true.
Proof.
  intros Hv Ha. apply add_with_data in Ha. destruct Ha as (b & Hc & _).
  apply verify_true_iff in Hv. destruct Hv as (b0 & Hin & Hd).
  apply verify_true_iff. exists b0. split; [|exact Hd].
  rewrite Hc. apply in_or_app. now left.
Qed.

Lemma verify_survives_add_witness :
  verify "editor" "bob" (mkChain [genesis_block; editor_bob_block]) = true /\
  add 5 t_carol "viewer" "carol"
      (mkChain [genesis_block; editor_bob_block])
      (saved [genesis_block; editor_bob_block] [])
  = Ret (mkChain [genesis_block; editor_bob_block; viewer_carol_block],
         saved [genesis_block; editor_bob_block; viewer_carol_block]
               ["Mined: " ++ hash viewer_carol_block]) /\
  verify "editor" "bob"
         (mkChain [genesis_block; editor_bob_block; viewer_carol_block])
  = true.
Proof.
  assert (Hv : verify "editor" "bob"
                 (mkChain [genesis_block; editor_bob_block]) = true)
    by reflexivity.
  split; [exact Hv|]. split; [exact add_viewer_carol|].
  exact (verify_survives_add 5 t_carol "editor" "bob" "viewer" "carol"
           _ _ _ _ Hv add_viewer_carol).
Defined.

Lemma has_char_app (c : ascii) (a b : string) :
  has_char c (a ++ b) = has_char c a || has_char c b.
Proof.
  induction a as [|x a IH]; simpl; [reflexivity|].
  now rewrite IH, orb_assoc.
Qed.

(** A payload without a colon matches no lookup. *)
Lemma contains_needs_colon (r u hay : string) :
  has_char ":" hay = false -> contains (r ++ ":" ++ u) hay = false.
Proof.
  intros H. destruct (contains (r ++ ":" ++ u) hay) eqn:E; [|reflexivity].
  apply contains_iff in E. destruct E as (pre & post & ->).
  rewrite !has_char_app in H. simpl in H.
  rewrite orb_true_r, orb_true_l, orb_true_r in H. discriminate.
Qed.

(** X5. A ledger just created grants nothing: on blank storage the
    constructor returns, and every lookup on the ledger it returns is
    false, since the genesis payload holds no colon. *)
Theorem fresh_ledger_denies (now : string) (w : world) :
  blank (disk w) ->
  exists self w',
    HeadyChain_init now w = Ret (self, w') /\
    forall r u : string, verify r u self = false.
Proof.
  intros Hb. eexists; eexists. split.
  - apply HeadyChain_init_blank. exact Hb.
  - intros r u. rewrite verify_existsb. cbn [chain map existsb].
    rewrite contains_needs_colon by reflexivity. reflexivity.
Qed.

Lemma fresh_ledger_denies_witness :
  blank (disk fresh_world) /\
  exists self w',
    HeadyChain_init t_boot fresh_world = Ret (self, w') /\
    forall r u : string, verify r u self = false.
Proof.
  assert (Hb : blank (disk fresh_world)) by (left; reflexivity).
  split; [exact Hb|]. exact (fresh_ledger_denies t_boot fresh_world Hb).
Defined.

(** ** The shape of a reachable chain *)

Lemma ledger_inv_index (self : HeadyChain) (w : world) :
  ledger_inv self w ->
  forall (i : nat) (b : Block),
    nth_error (chain self) i = Some b -> index b = Z.of_nat i.
Proof.
  intros [_ (g & rest & Hc & Hg & _) Hl _] i.
  induction i as [|i IH]; intros b Hb.
  - rewrite Hc in Hb. simpl in Hb. injection Hb as <-. exact Hg.
  - destruct (nth_error (chain self) i) as [p|] eqn:Hp.
    + destruct (Hl i p b Hp Hb) as [_ Hi]. rewrite Hi, (IH p eq_refl). lia.
    + apply nth_error_None in Hp.
      assert (nth_error (chain self) (S i) = None)
        by (apply nth_error_None; lia).
      congruence.
Qed.

(** X6. In every ledger state the program reaches, the index of a block
    is its position in the chain, so the chain holds as many blocks as
    the index of its tail plus one. *)
Theorem index_is_position (self : HeadyChain) (w : world) :
  reachable self w ->
  (forall (i : nat) (b : Block),
      nth_error (chain self) i = Some b -> index b = Z.of_nat i) /\
  (forall p : Block,
      last_block (chain self) = Some p ->
      Z.of_nat (List.length (chain self)) = index p + 1).
Proof.
  intros Hr. pose proof (reachable_inv _ _ Hr) as Hinv. split.
  - exact (ledger_inv_index _ _ Hinv).
  - intros p Hp. destruct (last_block_inv _ _ Hp) as [c0 Hc].
    assert (Hn : nth_error (chain self) (List.length c0) = Some p).
    { rewrite Hc, nth_error_app2 by lia.
      now replace (List.length c0 - List.length c0)%nat with 0%nat by lia. }
    rewrite (ledger_inv_index _ _ Hinv _ _ Hn), Hc, length_app. simpl. lia.
Qed.

Lemma index_is_position_witness :
  reachable (mkChain [genesis_block; editor_bob_block])
            (saved [genesis_block; editor_bob_block]
                   ["Mined: " ++ hash editor_bob_block]) /\
  index editor_bob_block = Z.of_nat 1 /\
  Z.of_nat (List.length [genesis_block; editor_bob_block])
  = index editor_bob_block + 1.
Proof.
  split; [exact reachable_editor_bob|]. split.
  - exact (proj1 (index_is_position _ _ reachable_editor_bob)
             1%nat editor_bob_block eq_refl).
  - exact (proj2 (index_is_position _ _ reachable_editor_bob)
             editor_bob_block eq_refl).
Defined.

(** X7. In every ledger state the program reaches, the hash of each
    block is a string of 64 characters among [0-9a-f], and the block at
    position 0 is the only one whose previous hash is the sentinel
    ["0"]. *)
Theorem hashes_are_digests (self : HeadyChain) (w : world) :
  reachable self w ->
  forall (i : nat) (b : Block),
    nth_error (chain self) i = Some b ->
    String.length (hash b) = 64%nat /\
    all_hex (hash b) = true /\
    (prev_hash b = "0" <-> i = 0%nat).
Proof.
  intros Hr. destruct (reachable_inv _ _ Hr) as [_ Hg Hl Hc].
  rewrite Forall_forall in Hc.
  assert (Hlen : forall j p, nth_error (chain self) j = Some p ->
                             String.length (hash p) = 64%nat).
  { intros j p Hp. rewrite (Hc p (nth_error_In _ _ Hp)).
    apply sha256_hex_length. }
  intros i b Hb. split; [exact (Hlen i b Hb)|]. split.
  - rewrite (Hc b (nth_error_In _ _ Hb)). apply sha256_hex_all_hex.
  - destruct Hg as (g & rest & Hch & _ & Hp0 & _). split.
    + intros Hp. destruct i as [|i]; [reflexivity|].
      destruct (nth_error (chain self) i) as [p|] eqn:Ep.
      * destruct (Hl i p b Ep Hb) as [Hh _].
        pose proof (Hlen i p Ep) as L. rewrite <- Hh, Hp in L. discriminate.
      * apply nth_error_None in Ep.
        assert (nth_error (chain self) (S i) = None)
          by (apply nth_error_None; lia).
        congruence.
    + intros ->. rewrite Hch in Hb. simpl in Hb. now injection Hb as <-.
Qed.

Lemma hashes_are_digests_witness :
  reachable (mkChain [genesis_block; editor_bob_block])
            (saved [genesis_block; editor_bob_block]
                   ["Mined: " ++ hash editor_bob_block]) /\
  String.length (hash editor_bob_block) = 64%nat /\
  all_hex (hash editor_bob_block) = true /\
  (prev_hash editor_bob_block = "0" <-> 1%nat = 0%nat).
Proof.
  split; [exact reachable_editor_bob|].
  exact (hashes_are_digests _ _ reachable_editor_bob 1%nat
           editor_bob_block eq_refl).
Defined.

(** ** Writing the file *)



(** X9. The constructor writes only where there is no ledger to read:
    when it returns on a file that [json.load] accepts, the storage and
    the terminal are as they were; in every other case it has left a
    chain of one genesis block and a file that holds it. *)
Theorem constructor_writes_only_on_blank
  (now : string) (w w' : world) (self : HeadyChain) :
  HeadyChain_init now w = Ret (self, w') ->
  ((exists v, disk w = File (Doc v)) /\ w' = w) \/
  (blank (disk w) /\
   self = mkChain [Block_init 0 now "Genesis" "0"] /\
   w' = saved [Block_init 0 now "Genesis" "0"] (stdout w)).
Proof.
  destruct w as [d out]. destruct d as [| |[|v]].
  - intros H. right. rewrite HeadyChain_init_blank in H by (left; reflexivity).
    injection H as <- <-. split; [left; reflexivity | split; reflexivity].
  - intros H. right.
    rewrite HeadyChain_init_blank in H by (right; left; reflexivity).
    injection H as <- <-. split; [right; left; reflexivity | split; reflexivity].
  - intros H. right.
    rewrite HeadyChain_init_blank in H by (right; right; reflexivity).
    injection H as <- <-. split; [right; right; reflexivity | split; reflexivity].
  - intros H. left. split; [now exists v|].
    unfold HeadyChain_init, load in H. cbn [disk] in H.
    destruct (py_iter v) as [bs| | |]; try discriminate.
    destruct (load_blocks bs) as [c| | |]; try discriminate.
    now injection H as _ <-.
Qed.

Lemma constructor_writes_only_on_blank_witness :
  HeadyChain_init t_boot (saved [genesis_block; forged_block] ["kept"])
  = Ret (mkChain [genesis_block; forged_block],
         saved [genesis_block; forged_block] ["kept"]) /\
  (((exists v, disk (saved [genesis_block; forged_block] ["kept"])
               = File (Doc v)) /\
    saved [genesis_block; forged_block] ["kept"]
    = saved [genesis_block; forged_block] ["kept"]) \/
   (blank (disk (saved [genesis_block; forged_block] ["kept"])) /\
    mkChain [genesis_block; forged_block]
    = mkChain [Block_init 0 t_boot "Genesis" "0"] /\
    saved [genesis_block; forged_block] ["kept"]
    = saved [Block_init 0 t_boot "Genesis" "0"]
            (stdout (saved [genesis_block; forged_block] ["kept"])))).
Proof.
  pose proof (HeadyChain_init_saved t_boot [genesis_block; forged_block]
                ["kept"]) as H.
  split; [exact H|].
  exact (constructor_writes_only_on_blank t_boot _ _ _ H).
Defined.

(** ** The command line, with all its arguments *)

Lemma main_verify_saved (fuel : nat) (t0 t1 p r u : string)
  (rest : list string) (c : list Block) (out : list string) :
  main fuel t0 t1 (p :: "verify" :: r :: u :: rest) (saved c out)
  = Ret (tt, saved c (out ++ [if verify r u (mkChain c)
                              then "ACCESS GRANTED" else "DENIED"])).
Proof.
  unfold main, bind. rewrite HeadyChain_init_saved.
  cbn [List.length Nat.ltb Nat.leb arg nth String.eqb Ascii.eqb Bool.eqb andb].
  reflexivity.
Qed.



Lemma main_grant_startable (fuel : nat) (t0 t1 p r u : string)
  (rest : list string) (w w1 : world) :
  startable (disk w) ->
  main fuel t0 t1 (p :: "grant" :: r :: u :: rest) w = Ret (tt, w1) ->
  exists c b, w1 = saved (c ++ [b]) (stdout w ++ ["Mined: " ++ hash b]) /\
              data b = r ++ ":" ++ u /\
              (blank (disk w) -> c = [Block_init 0 t0 "Genesis" "0"]) /\
              (forall c0, disk w = File (Doc (JList (map vars c0))) -> c = c0).
Proof.
  intros Hs H. unfold main, bind in H.
  assert (Hi : exists c, HeadyChain_init t0 w
                         = Ret (mkChain c, saved c (stdout w)) /\
                         (blank (disk w) -> c = [Block_init 0 t0 "Genesis" "0"]) /\
                         (forall c0, disk w = File (Doc (JList (map vars c0))) ->
                                     c = c0)).
  { destruct Hs as [Hb | [c Hc]].
    - exists [Block_init 0 t0 "Genesis" "0"].
      split; [now apply HeadyChain_init_blank|]. split; [reflexivity|].
      intros c0 Hc0. destruct Hb as [Hb | [Hb | Hb]]; congruence.
    - exists c. destruct w as [d out]. simpl in Hc. subst d.
      split; [apply HeadyChain_init_saved|]. split.
      + intros [Hb | [Hb | Hb]]; discriminate.
      + intros c0 Hc0. simpl in Hc0. injection Hc0 as Hc0.
        clear -Hc0. revert c0 Hc0.
        induction c as [|b c IH]; intros [|b0 c0] Hc0; try discriminate;
          [reflexivity|].
        simpl in Hc0. injection Hc0 as E1 E2 E3 E4 E5 E6 E7.
        destruct b, b0; simpl in *; subst. f_equal. now apply IH. }
  destruct Hi as (c & Hi & Hblank & Hsaved). rewrite Hi in H.
  cbn [List.length Nat.ltb Nat.leb arg nth String.eqb Ascii.eqb Bool.eqb andb]
    in H.
  destruct (add fuel t1 r u (mkChain c) (saved c (stdout w)))
    as [[self' w']| | |] eqn:Ea; try discriminate.
  unfold ret in H. injection H as <-.
  pose proof Ea as Ed. apply add_with_data in Ed.
  destruct Ed as (b & Hc & Hd).
  apply add_with_ret in Ea.
  destruct Ea as (p0 & b' & _ & _ & Hs' & _ & ->).
  rewrite Hs' in Hc. cbn [chain] in Hc. apply app_inv_head in Hc.
  injection Hc as ->.
  exists c, b. auto.
Qed.

(** X11. Granting and looking up go through the file: when
    [grant role user] on the command line has returned, on storage that
    was blank or held a saved chain, the file holds one block more, and
    any later [verify role user] on the storage it left prints
    [ACCESS GRANTED] and leaves that storage as it is. *)
Theorem main_grant_then_verify
  (fuel fuel' : nat) (t0 t1 t0' t1' p p' r u : string)
  (rest rest' : list string) (w w1 : world) (out' : list string) :
  startable (disk w) ->
  main fuel t0 t1 (p :: "grant" :: r :: u :: rest) w = Ret (tt, w1) ->
  main fuel' t0' t1' (p' :: "verify" :: r :: u :: rest')
       (mkWorld (disk w1) out')
  = Ret (tt, mkWorld (disk w1) (out' ++ ["ACCESS GRANTED"])).
Proof.
  intros Hs H.
  destruct (main_grant_startable _ _ _ _ _ _ _ _ _ Hs H)
    as (c & b & -> & Hd & _).
  cbn [disk saved].
  change (mkWorld (File (Doc (JList (map vars (c ++ [b]))))) out')
    with (saved (c ++ [b]) out').
  rewrite main_verify_saved.
  replace (verify r u (mkChain (c ++ [b]))) with true; [reflexivity|].
  symmetry. apply verify_true_iff. exists b. split.
  - apply in_or_app. right. left. reflexivity.
  - apply contains_iff. exists EmptyString, EmptyString. rewrite Hd.
    simpl. now rewrite append_nil_r.
Qed.

Lemma main_grant_then_verify_witness :
  startable (disk fresh_world) /\
  main 5 t_boot t_grant ["Heady_Chain.py"; "grant"; "editor"; "bob"]
       fresh_world
  = Ret (tt, saved [genesis_block; editor_bob_block]
                   ["Mined: " ++ hash editor_bob_block]) /\
  main 0 t_carol t_carol ["Heady_Chain.py"; "verify"; "editor"; "bob"]
       (mkWorld (disk (saved [genesis_block; editor_bob_block]
                             ["Mined: " ++ hash editor_bob_block])) [])
  = Ret (tt, mkWorld (disk (saved [genesis_block; editor_bob_block]
                                  ["Mined: " ++ hash editor_bob_block]))
                     ([] ++ ["ACCESS GRANTED"])).
Proof.
  assert (Hs : startable (disk fresh_world)) by (left; left; reflexivity).
  assert (Hg : main 5 t_boot t_grant
                 ["Heady_Chain.py"; "grant"; "editor"; "bob"] fresh_world
               = Ret (tt, saved [genesis_block; editor_bob_block]
                                ["Mined: " ++ hash editor_bob_block])).
  { unfold main, bind. rewrite HeadyChain_init_fresh.
    cbn [List.length Nat.ltb Nat.leb arg nth String.eqb Ascii.eqb Bool.eqb andb].
    rewrite add_editor_bob. reflexivity. }
  split; [exact Hs|]. split; [exact Hg|].
  exact (main_grant_then_verify 5 0 t_boot t_grant t_carol t_carol
           "Heady_Chain.py" "Heady_Chain.py" "editor" "bob" [] []
           fresh_world _ [] Hs Hg).
Defined.

(** ** Reading records *)




(** X14. The files that [load] takes for an empty ledger: it returns
    the empty chain, without falling back to genesis, exactly on the
    empty list, the empty object and the empty string, the three values
    whose iteration visits nothing. *)
Theorem load_empty_chain_iff
  (now : string) (self : HeadyChain) (v : json) (out : list string)
  (w' : world) :
  load now self (mkWorld (File (Doc v)) out) = Ret (mkChain [], w') <->
  (v = JList [] \/ v = JObj [] \/ v = JStr EmptyString) /\
  w' = mkWorld (File (Doc v)) out.
Proof.
  unfold load. cbn [disk]. split.
  - destruct v as [| | | |s|l|items]; cbn [py_iter]; try discriminate.
    + destruct s as [|c s].
      * cbn. intros H. injection H as <-. auto.
      * cbn. discriminate.
    + destruct l as [|b l].
      * cbn. intros H. injection H as <-. auto.
      * cbn [load_blocks].
        destruct (load_block b); destruct (load_blocks l); discriminate.
    + destruct items as [|[k x] items].
      * cbn. intros H. injection H as <-. auto.
      * cbn. discriminate.
  - intros [[-> | [-> | ->]] ->]; reflexivity.
Qed.


Lemma load_empty_chain_iff_witness :
  load t_boot (mkChain [genesis_block]) (mkWorld (File (Doc (JObj []))) [])
  = Ret (mkChain [], mkWorld (File (Doc (JObj []))) []) /\
  load t_boot (mkChain []) (mkWorld (File (Doc (JList [JNull]))) [])
  <> Ret (mkChain [], mkWorld (File (Doc (JList [JNull]))) []).
Proof.
  split.
  - apply (proj2 (load_empty_chain_iff _ _ _ _ _)). auto.
  - intros H. apply (proj1 (load_empty_chain_iff _ _ _ _ _)) in H.
    destruct H as [[H | [H | H]] _]; discriminate.
Defined.

(** ** The older revisions, further *)




(** X16. The first [__main__] block grants twice: with a [grant] verb
    and its two arguments, the unguarded [if] calls [add] and the
    guarded chain after it calls [add] again, so a run that returns has
    appended two blocks with the same payload, the second linked to the
    first, and has printed two [Mined:] lines. *)
Theorem FirstMain_grants_twice
  (fuel : nat) (t0 t1 t2 p r u : string) (rest : list string)
  (hc : HeadyChain) (w w0 w' : world) :
  FirstMain.HeadyChain_init t0 w = Ret (hc, w0) ->
  FirstMain.main fuel t0 t1 t2 (p :: "grant" :: r :: u :: rest) w
  = Ret (tt, w') ->
  exists b1 b2,
    disk w' = File (Doc (JList (map vars (chain hc ++ [b1; b2])))) /\
    data b1 = r ++ ":" ++ u /\ data b2 = r ++ ":" ++ u /\
    prev_hash b2 = hash b1 /\ index b2 = index b1 + 1 /\
    stdout w' = (stdout w0 ++ [("Mined: " ++ hash b1)%string;
                               ("Mined: " ++ hash b2)%string])%list.
Proof.
  intros Hi H. unfold FirstMain.main, bind in H. rewrite Hi in H.
  cbn [FirstMain.argv_get nth_error ret String.eqb Ascii.eqb Bool.eqb
       List.length Nat.ltb Nat.leb arg nth andb] in H.
  destruct (add fuel t1 r u hc w0) as [[hc1 w1]| | |] eqn:E1; try discriminate.
  cbn [String.eqb Ascii.eqb Bool.eqb] in H.
  destruct (add fuel t2 r u hc1 w1) as [[hc2 w2]| | |] eqn:E2; try discriminate.
  injection H as <-.
  pose proof (add_with_data _ _ _ _ _ _ _ _ _ E1) as (b1 & Hc1 & Hd1).
  pose proof (add_with_data _ _ _ _ _ _ _ _ _ E2) as (b2 & Hc2 & Hd2).
  apply add_with_ret in E1.
  destruct E1 as (p1 & b1' & _ & _ & Hs1 & _ & ->).
  rewrite Hs1 in Hc1. cbn [chain] in Hc1. apply app_inv_head in Hc1.
  injection Hc1 as ->.
  apply add_with_ret in E2.
  destruct E2 as (p2 & b2' & Hp2 & Hm2 & Hs2 & _ & ->).
  rewrite Hs2 in Hc2. cbn [chain] in Hc2. apply app_inv_head in Hc2.
  injection Hc2 as ->.
  rewrite Hs1 in Hp2. cbn [chain] in Hp2. rewrite last_block_snoc in Hp2.
  injection Hp2 as <-.
  destruct (mined_candidate_links _ _ _ _ _ _ _ Hm2) as [Hl1 Hl2].
  exists b1, b2. rewrite Hs1. cbn [chain disk stdout saved].
  rewrite <- !app_assoc. simpl. auto 10.
Qed.

Example FirstMain_init_genesis :
  FirstMain.HeadyChain_init t_boot (saved [genesis_block] [])
  = Ret (mkChain [genesis_block], saved [genesis_block] []).
Proof. vm_compute. reflexivity. Qed.

Lemma FirstMain_grants_twice_witness :
  FirstMain.HeadyChain_init t_boot (saved [genesis_block] [])
  = Ret (mkChain [genesis_block], saved [genesis_block] []) /\
  FirstMain.main 5 t_boot t_grant t_again
    ["Heady_Chain.py"; "grant"; "editor"; "bob"] (saved [genesis_block] [])
  = Ret (tt, saved [genesis_block; editor_bob_block; editor_bob_again_block]
                   ["Mined: " ++ hash editor_bob_block;
                    "Mined: " ++ hash editor_bob_again_block]) /\
  exists b1 b2,
    disk (saved [genesis_block; editor_bob_block; editor_bob_again_block]
                ["Mined: " ++ hash editor_bob_block;
                 "Mined: " ++ hash editor_bob_again_block])
    = File (Doc (JList (map vars ([genesis_block] ++ [b1; b2])))) /\
    data b1 = "editor" ++ ":" ++ "bob" /\ data b2 = "editor" ++ ":" ++ "bob" /\
    prev_hash b2 = hash b1 /\ index b2 = index b1 + 1 /\
    ["Mined: " ++ hash editor_bob_block;
     "Mined: " ++ hash editor_bob_again_block]
    = ([] ++ [("Mined: " ++ hash b1)%string;
              ("Mined: " ++ hash b2)%string])%list.
Proof.
  assert (Hm : FirstMain.main 5 t_boot t_grant t_again
                 ["Heady_Chain.py"; "grant"; "editor"; "bob"]
                 (saved [genesis_block] [])
               = Ret (tt, saved [genesis_block; editor_bob_block;
                                 editor_bob_again_block]
                                ["Mined: " ++ hash editor_bob_block;
                                 "Mined: " ++ hash editor_bob_again_block]))
    by (vm_compute; reflexivity).
  split; [exact FirstMain_init_genesis|]. split; [exact Hm|].
  exact (FirstMain_grants_twice 5 t_boot t_grant t_again "Heady_Chain.py"
           "editor" "bob" [] _ _ _ _ FirstMain_init_genesis Hm).
Defined.

(** X17. The constructor of the first revision has no fallback and
    never repairs anything: where the ledger directory is there, it
    raises [FileNotFoundError] when the file is missing and
    [JSONDecodeError] when the file is not JSON, and when it returns it
    has left the storage and the terminal as they were. *)
Theorem FirstMain_constructor_no_fallback (now : string) (w : world) :
  (disk w = NoFile -> FirstMain.HeadyChain_init now w = Raise FileNotFoundError) /\
  (disk w = File BadText ->
   FirstMain.HeadyChain_init now w = Raise JSONDecodeError) /\
  (disk w <> NoDir ->
   forall (hc : HeadyChain) (w' : world),
     FirstMain.HeadyChain_init now w = Ret (hc, w') -> w' = w).
Proof.
  destruct w as [d out]. cbn [disk]. split; [|split].
  - intros ->. reflexivity.
  - intros ->. reflexivity.
  - intros Hd hc w'. unfold FirstMain.HeadyChain_init, FirstMain.load.
    cbn [disk]. destruct d as [| |[|v]]; try discriminate; [contradiction|].
    destruct (py_iter v) as [bs| | |]; try discriminate.
    destruct (FourFieldLoad.load_blocks bs) as [c| | |]; try discriminate.
    intros H. now injection H as _ <-.
Qed.

Lemma FirstMain_constructor_no_fallback_witness :
  disk (mkWorld NoFile []) = NoFile /\
  FirstMain.HeadyChain_init t_boot (mkWorld NoFile []) = Raise FileNotFoundError /\
  disk (mkWorld (File BadText) []) = File BadText /\
  FirstMain.HeadyChain_init t_boot (mkWorld (File BadText) [])
  = Raise JSONDecodeError /\
  disk (saved [genesis_block] []) <> NoDir /\
  saved [genesis_block] [] = saved [genesis_block] [].
Proof.
  assert (Hd : disk (saved [genesis_block] []) <> NoDir) by discriminate.
  split; [reflexivity|]. split.
  - exact (proj1 (FirstMain_constructor_no_fallback t_boot (mkWorld NoFile []))
                 eq_refl).
  - split; [reflexivity|]. split.
    + exact (proj1 (proj2 (FirstMain_constructor_no_fallback t_boot
                             (mkWorld (File BadText) []))) eq_refl).
    + split; [exact Hd|].
      exact (proj2 (proj2 (FirstMain_constructor_no_fallback t_boot
                             (saved [genesis_block] []))) Hd _ _
                   FirstMain_init_genesis).
Defined.

(** ** More on granting *)

Example add_team_ops_dana :
  add 5 t_team "team:ops" "dana" (mkChain [genesis_block])
      (saved [genesis_block] [])
  = Ret (mkChain [genesis_block; team_ops_dana_block],
         saved [genesis_block; team_ops_dana_block]
               ["Mined: " ++ hash team_ops_dana_block]).
Proof.
  unfold add.
  rewrite (add_with_returns _ _ _ _ _ _ _ genesis_block team_ops_dana_block).
  - reflexivity.
  - reflexivity.
  - vm_compute. reflexivity.
  - discriminate.
Qed.

(** X25. The payload does not tell role and user apart when either
    holds a colon: granting the role [r:x] to [u] stores the same
    payload as granting [r] to [x:u], so after the first, the lookup of
    the second succeeds. *)
Theorem grant_payload_is_ambiguous
  (fuel : nat) (now r x u : string) (self self' : HeadyChain) (w w' : world) :
  add fuel now (r ++ ":" ++ x) u self w = Ret (self', w') ->
  (exists b, last_block (chain self') = Some b /\
             data b = r ++ ":" ++ (x ++ ":" ++ u)) /\
  verify r (x ++ ":" ++ u) self' = true.
Proof.
  intros H. apply add_with_data in H. destruct H as (b & Hc & Hd).
  assert (E : data b = r ++ ":" ++ (x ++ ":" ++ u)).
  { rewrite Hd. now rewrite !append_assoc. }
  split.
  - exists b. split; [rewrite Hc; apply last_block_snoc | exact E].
  - apply verify_true_iff. exists b. split.
    + rewrite Hc. apply in_or_app. right. left. reflexivity.
    + apply contains_iff. exists EmptyString, EmptyString.
      rewrite E. simpl. now rewrite append_nil_r.
Qed.

Lemma grant_payload_is_ambiguous_witness :
  add 5 t_team ("team" ++ ":" ++ "ops") "dana" (mkChain [genesis_block])
      (saved [genesis_block] [])
  = Ret (mkChain [genesis_block; team_ops_dana_block],
         saved [genesis_block; team_ops_dana_block]
               ["Mined: " ++ hash team_ops_dana_block]) /\
  verify "team" ("ops" ++ ":" ++ "dana")
         (mkChain [genesis_block; team_ops_dana_block]) = true.
Proof.
  split; [exact add_team_ops_dana|].
  exact (proj2 (grant_payload_is_ambiguous 5 t_team "team" "ops" "dana"
                  _ _ _ _ add_team_ops_dana)).
Defined.

Lemma HeadyChain_init_startable (now : string) (w : world) :
  startable (disk w) ->
  exists c, HeadyChain_init now w = Ret (mkChain c, saved c (stdout w)).
Proof.
  intros [Hb | [c Hc]].
  - eexists. now apply HeadyChain_init_blank.
  - exists c. destruct w as [d out]. simpl in Hc. subst d.
    apply HeadyChain_init_saved.
Qed.

(** X26. The program never leaves a file it cannot read back: started
    on storage that is blank or holds a saved chain, a run of the
    [__main__] block that returns, whatever its command line, leaves a
    file that holds a saved chain, and the constructor of any later run
    loads exactly that chain without writing. *)
Theorem main_leaves_loadable_storage
  (fuel : nat) (t0 t1 : string) (argv : list string) (w w' : world) :
  startable (disk w) ->
  ledger_main fuel t0 t1 argv w = Ret (tt, w') ->
  exists c,
    disk w' = File (Doc (JList (map vars c))) /\
    startable (disk w') /\
    forall (now : string) (out : list string),
      HeadyChain_init now (mkWorld (disk w') out)
      = Ret (mkChain c, mkWorld (disk w') out).
Proof.
  intros Hs H.
  assert (G : forall c out,
             exists c0,
               disk (saved c out) = File (Doc (JList (map vars c0))) /\
               startable (disk (saved c out)) /\
               forall now out',
                 HeadyChain_init now (mkWorld (disk (saved c out)) out')
                 = Ret (mkChain c0, mkWorld (disk (saved c out)) out')).
  { intros c out. exists c. split; [reflexivity|]. split.
    - right. now exists c.
    - intros now out'. apply (HeadyChain_init_saved now c out'). }
  destruct (HeadyChain_init_startable t0 w Hs) as [c Hi].
  unfold ledger_main, main, bind in H. rewrite Hi in H.
  destruct (List.length argv <? 2)%nat.
  { injection H as <-. apply (G c). }
  destruct (String.eqb (arg argv 1) "grant" && (4 <=? List.length argv)%nat).
  { destruct (add fuel t1 (arg argv 2) (arg argv 3) (mkChain c)
                  (saved c (stdout w))) as [[hc1 w1]| | |] eqn:Ea;
      try discriminate.
    injection H as <-. apply add_with_ret in Ea.
    destruct Ea as (p0 & b & _ & _ & _ & _ & ->). apply G. }
  destruct (String.eqb (arg argv 1) "verify" && (4 <=? List.length argv)%nat);
    injection H as <-; apply (G c).
Qed.

Lemma main_leaves_loadable_storage_witness :
  startable (disk fresh_world) /\
  ledger_main 5 t_boot t_grant ["Heady_Chain.py"; "grant"; "editor"; "bob"]
              fresh_world
  = Ret (tt, saved [genesis_block; editor_bob_block]
                   ["Mined: " ++ hash editor_bob_block]) /\
  exists c,
    disk (saved [genesis_block; editor_bob_block]
                ["Mined: " ++ hash editor_bob_block])
    = File (Doc (JList (map vars c))) /\
    startable (disk (saved [genesis_block; editor_bob_block]
                           ["Mined: " ++ hash editor_bob_block])) /\
    forall (now : string) (out : list string),
      HeadyChain_init now
        (mkWorld (disk (saved [genesis_block; editor_bob_block]
                              ["Mined: " ++ hash editor_bob_block])) out)
      = Ret (mkChain c,
             mkWorld (disk (saved [genesis_block; editor_bob_block]
                                  ["Mined: " ++ hash editor_bob_block])) out).
Proof.
  assert (Hs : startable (disk fresh_world)) by (left; left; reflexivity).
  assert (Hg : ledger_main 5 t_boot t_grant
                 ["Heady_Chain.py"; "grant"; "editor"; "bob"] fresh_world
               = Ret (tt, saved [genesis_block; editor_bob_block]
                                ["Mined: " ++ hash editor_bob_block])).
  { unfold ledger_main, main, bind. rewrite HeadyChain_init_fresh.
    cbn [List.length Nat.ltb Nat.leb arg nth String.eqb Ascii.eqb Bool.eqb andb].
    rewrite add_editor_bob. reflexivity. }
  split; [exact Hs|]. split; [exact Hg|].
  exact (main_leaves_loadable_storage 5 t_boot t_grant
           ["Heady_Chain.py"; "grant"; "editor"; "bob"] fresh_world _ Hs Hg).
Defined.

(** ** Witnesses for two facts about the older revisions *)

Example DifficultyFour_add_editor_bob :
  DifficultyFour.add 5 t_four "editor" "bob" (mkChain [genesis_block])
      (saved [genesis_block] [])
  = Ret (mkChain [genesis_block; editor_bob_four_block],
         saved [genesis_block; editor_bob_four_block]
               ["Mined: " ++ hash editor_bob_four_block]).
Proof.
  unfold DifficultyFour.add.
  rewrite (add_with_returns _ _ _ _ _ _ _ genesis_block editor_bob_four_block).
  - reflexivity.
  - reflexivity.
  - vm_compute. reflexivity.
  - discriminate.
Qed.

Lemma DifficultyFour_add_sealed_witness :
  DifficultyFour.add 5 t_four "editor" "bob" (mkChain [genesis_block])
      (saved [genesis_block] [])
  = Ret (mkChain [genesis_block; editor_bob_four_block],
         saved [genesis_block; editor_bob_four_block]
               ["Mined: " ++ hash editor_bob_four_block]) /\
  exists b, [genesis_block; editor_bob_four_block]
            = ([genesis_block] ++ [b])%list /\
            startswith (hash b) "0000" = true /\
            startswith (hash b) "00" = true.
Proof.
  split; [exact DifficultyFour_add_editor_bob|].
  exact (DifficultyFour_add_sealed 5 t_four "editor" "bob" _ _ _ _
           DifficultyFour_add_editor_bob).
Defined.

Lemma FirstMain_no_verb_raises_witness :
  (List.length ["Heady_Chain.py"] < 2)%nat /\
  FirstMain.HeadyChain_init t_boot (saved [genesis_block] [])
  = Ret (mkChain [genesis_block], saved [genesis_block] []) /\
  FirstMain.main 0 t_boot t_grant t_again ["Heady_Chain.py"]
                 (saved [genesis_block] [])
  = Raise IndexError.
Proof.
  assert (Hl : (List.length ["Heady_Chain.py"] < 2)%nat) by (simpl; lia).
  split; [exact Hl|]. split; [exact FirstMain_init_genesis|].
  exact (FirstMain_no_verb_raises 0 t_boot t_grant t_again ["Heady_Chain.py"]
           _ _ _ Hl FirstMain_init_genesis).
Defined.

(** The [__main__] block of the ledger on a complete command line. *)
Lemma ledger_main_grant (fuel : nat) (t0 t1 p r u : string)
  (rest : list string) :
  ledger_main fuel t0 t1 (p :: "grant" :: r :: u :: rest)
  = (hc <- HeadyChain_init t0 ;; add fuel t1 r u hc ;;; ret tt).
Proof. reflexivity. Qed.

Lemma ledger_main_verify (fuel : nat) (t0 t1 p r u : string)
  (rest : list string) :
  ledger_main fuel t0 t1 (p :: "verify" :: r :: u :: rest)
  = (hc <- HeadyChain_init t0 ;;
     print (if verify r u hc then "ACCESS GRANTED" else "DENIED")).
Proof. reflexivity. Qed.

(** * The build and repair script *)

Import BuildRepair.

(** ** The texts, checked against the source by their digests *)

Example js_code_digest :
  sha256_hex js_code
  = "c5e2eff9f8e7a1fbfacc2049841ce458c7daef9b2dc1f897a2f2d8614beaa7de".
Proof. vm_compute. reflexivity. Qed.

Example py_code_digest :
  sha256_hex py_code
  = "86dd0c80306f6ae429244a2aaecb6298763d9dc25d09de7cb58312a3a4e189e2".
Proof. vm_compute. reflexivity. Qed.

Example yaml_content_digest :
  sha256_hex yaml_content
  = "e59fa7a4897df7c36099a616defef9dcdbd5f210c0395adb60aa56a1196994ae".
Proof. vm_compute. reflexivity. Qed.

Example requirements_text_digest :
  sha256_hex requirements_text
  = "ae1bf6d84ae147a0a19636bde49b1bb403e16e0e5a1dc302d169739580e7ef5a".
Proof. vm_compute. reflexivity. Qed.

(** ** The audit *)

Lemma audit_loop_spec (files : list path) :
  forall (missing : list string) (s : site),
    audit_loop files missing s =
    Done ((missing
           ++ map name (filter (fun f => negb (path_exists (root s) f)) files))%list,
          mkSite (ledger s) (root s)
                 (terminal s ++ map (audit_line (root s)) files)).
Proof.
  induction files as [|f files IH]; intros missing [ld pr term].
  - cbn. now rewrite !app_nil_r.
  - cbn [audit_loop root]. unfold audit_line at 1. cbn [map filter].
    destruct (path_exists pr f) eqn:E; unfold bindP, printP; cbn [negb];
      rewrite IH; cbn [ledger root terminal];
      rewrite <- ?app_assoc; reflexivity.
Qed.

Lemma mem_missing (pr : project) (p : path) :
  mem (name p)
      (map name (filter (fun f => negb (path_exists pr f)) required_files))
  = negb (path_exists pr p).
Proof.
  unfold required_files. cbn [filter].
  destruct p;
    destruct (path_exists pr RenderYaml), (path_exists pr RequirementsTxt),
      (path_exists pr PackageJson), (path_exists pr HeadyManagerJs),
      (path_exists pr ProcessDataPy); reflexivity.
Qed.

(** ** The repair *)

Lemma appends_ret {A : Type} (a : A) : appends (retP a).
Proof.
  intros s a' s' H. injection H as _ <-. split; [reflexivity|].
  exists []. now rewrite app_nil_r.
Qed.

Lemma appends_print (line : string) : appends (printP line).
Proof.
  intros s a s' H. injection H as _ <-. split; [reflexivity|].
  now exists [line].
Qed.

Lemma appends_bind {A B : Type} (m : P A) (f : A -> P B) :
  appends m -> (forall a, appends (f a)) -> appends (m >>= f).
Proof.
  intros Hm Hf s b s' H. unfold bindP in H.
  destruct (m s) as [[a s1]| | |] eqn:E; try discriminate.
  destruct (Hm _ _ _ E) as [L1 [o1 T1]].
  destruct (Hf a _ _ _ H) as [L2 [o2 T2]].
  split; [congruence|]. exists (o1 ++ o2)%list.
  now rewrite T2, T1, app_assoc.
Qed.

Lemma appends_when (c : bool) (m : P unit) : appends m -> appends (when c m).
Proof. destruct c; [trivial | intros _; apply appends_ret]. Qed.

Lemma appends_write_file (p : path) (c : fcontent) : appends (write_file p c).
Proof.
  intros s a s' H. unfold write_file in H.
  assert (G : forall o : outcome node,
             match o with
             | Done n => Done (tt, mkSite (ledger s) (set_node (root s) p n)
                                          (terminal s))
             | Failed e => Failed e
             | StillMining => StillMining
             | UntypedRecord => UntypedRecord
             end = Done (a, s') ->
             ledger s' = ledger s /\
             exists out, terminal s' = (terminal s ++ out)%list).
  { intros [n| | |] Ho; try discriminate. injection Ho as _ <-.
    split; [reflexivity|]. exists []. now rewrite app_nil_r. }
  destruct p; try (apply (G _ H)).
  destruct (src (root s)); try discriminate. apply (G _ H).
Qed.

Lemma appends_mkdir_src : appends mkdir_src.
Proof.
  intros s a s' H. unfold mkdir_src in H.
  destruct (src (root s)); try discriminate; injection H as _ <-;
    (split; [reflexivity|]); exists []; now rewrite app_nil_r.
Qed.

Lemma appends_audit : appends audit_infrastructure.
Proof.
  intros s a s' H. unfold audit_infrastructure in H.
  rewrite audit_loop_spec in H. injection H as _ <-.
  split; [reflexivity|]. eexists. reflexivity.
Qed.

Lemma appends_run_build_repair : appends run_build_repair.
Proof.
  unfold run_build_repair, generate_requirements, generate_package_json,
    generate_heady_manager, generate_process_data, generate_render_yaml.
  repeat first
    [ apply appends_print
    | apply appends_write_file
    | apply appends_mkdir_src
    | apply appends_audit
    | apply appends_when
    | apply appends_bind; [|intros ?] ].
Qed.

(** The effect of [run_build_repair] on the project root where [src] is
    not a regular file. *)
Lemma run_build_repair_root (s : site) :
  (forall c, src (root s) <> SrcReg c) ->
  exists s',
    run_build_repair s = Done (tt, s') /\
    (forall p, lookup (root s') p =
               if path_exists (root s) p then lookup (root s) p
               else Reg (generated p)) /\
    (exists n, src (root s') = SrcDir n) /\
    ((forall p, path_exists (root s) p = true) -> root s' = root s).
Proof.
  destruct s as [ld [ry rq pk hm sr] term]. cbn [root src]. intros Hsrc.
  destruct sr as [|c|n]; [|exfalso; exact (Hsrc c eq_refl)|].
  - destruct ry, rq, pk, hm;
      (eexists; split;
       [ unfold run_build_repair, bindP, printP, audit_infrastructure;
         cbn -[js_code py_code yaml_content requirements_text package
               str_repeat nl append];
         reflexivity |]; split;
       [intros p; destruct p; reflexivity|]; split;
       [eexists; reflexivity | intros H; specialize (H ProcessDataPy);
                                discriminate H]).
  - destruct ry, rq, pk, hm, n;
      (eexists; split;
       [ unfold run_build_repair, bindP, printP, audit_infrastructure;
         cbn -[js_code py_code yaml_content requirements_text package
               str_repeat nl append];
         reflexivity |]; split;
       [intros p; destruct p; reflexivity|]; split;
       [eexists; reflexivity|]);
      intros H;
      first [ reflexivity
            | specialize (H RenderYaml); discriminate H
            | specialize (H RequirementsTxt); discriminate H
            | specialize (H PackageJson); discriminate H
            | specialize (H HeadyManagerJs); discriminate H
            | specialize (H ProcessDataPy); discriminate H ].
Qed.

(** Where [src] is a regular file, [generate_process_data] is reached
    and its [mkdir] raises. *)
Lemma run_build_repair_blocked (s : site) (c : fcontent) :
  src (root s) = SrcReg c -> run_build_repair s = Failed FileExistsError.
Proof.
  destruct s as [ld [ry rq pk hm sr] term]. cbn [root src]. intros ->.
  destruct ry, rq, pk, hm;
    (unfold run_build_repair, bindP, printP, audit_infrastructure;
     cbn -[js_code py_code yaml_content requirements_text package
           str_repeat nl append];
     reflexivity).
Qed.

Example run_build_repair_empty :
  run_build_repair empty_site = Done (tt, repaired_site).
Proof. vm_compute. reflexivity. Qed.

(** X18. [audit_infrastructure] changes nothing: it prints one line for
    each of the five required files, in their fixed order, [OK] for a
    path that exists and [MISSING] for one that does not, and returns
    the names of the missing ones in that order; the list is empty
    exactly when all five exist. *)
Theorem audit_reports_missing (s : site) :
  exists missing : list string,
    audit_infrastructure s
    = Done (missing,
            mkSite (ledger s) (root s)
                   (terminal s ++ map (audit_line (root s)) required_files)) /\
    missing
    = map name (filter (fun f => negb (path_exists (root s) f)) required_files) /\
    (forall p, mem (name p) missing = negb (path_exists (root s) p)) /\
    (missing = [] <-> forall p, path_exists (root s) p = true).
Proof.
  eexists. split; [apply (audit_loop_spec required_files [] s)|].
  cbn [app]. split; [reflexivity|]. split; [intros p; apply mem_missing|].
  split.
  - intros H p. pose proof (mem_missing (root s) p) as Hm.
    rewrite H in Hm. cbn in Hm. now destruct (path_exists (root s) p).
  - intros H. unfold required_files. cbn [filter]. now rewrite !H.
Qed.

(** X19. Where [src] is not a regular file, [run_build_repair] returns,
    and it repairs without overwriting: afterwards each of the five
    paths exists, a path that existed before holds what it held, a path
    that was missing holds the generated text, the ledger storage is
    untouched and the terminal has only grown. *)
Theorem run_build_repair_repairs (s : site) :
  (forall c, src (root s) <> SrcReg c) ->
  exists s',
    run_build_repair s = Done (tt, s') /\
    ledger s' = ledger s /\
    (exists out, terminal s' = (terminal s ++ out)%list) /\
    (forall p, lookup (root s') p =
               if path_exists (root s) p then lookup (root s) p
               else Reg (generated p)) /\
    (forall p, path_exists (root s') p = true).
Proof.
  intros Hsrc.
  destruct (run_build_repair_root s Hsrc) as (s' & Hrun & Hlook & _ & _).
  exists s'. split; [exact Hrun|].
  destruct (appends_run_build_repair _ _ _ Hrun) as [Hl Ht].
  split; [exact Hl|]. split; [exact Ht|]. split; [exact Hlook|].
  intros p. unfold path_exists at 1. rewrite Hlook.
  unfold path_exists. destruct (lookup (root s) p); reflexivity.
Qed.

Lemma run_build_repair_repairs_witness :
  (forall c, src (root empty_site) <> SrcReg c) /\
  run_build_repair empty_site = Done (tt, repaired_site) /\
  exists s',
    run_build_repair empty_site = Done (tt, s') /\
    ledger s' = ledger empty_site /\
    (forall p, path_exists (root s') p = true).
Proof.
  assert (Hs : forall c, src (root empty_site) <> SrcReg c)
    by (intros c; discriminate).
  split; [exact Hs|]. split; [exact run_build_repair_empty|].
  destruct (run_build_repair_repairs empty_site Hs)
    as (s' & Hr & Hl & _ & _ & He).
  exists s'. auto.
Defined.

(** X20. [run_build_repair] converges in one run: after a run that has
    returned, the audit finds nothing missing, and a second run returns
    with the project root and the ledger storage exactly as the first
    run left them. *)
Theorem run_build_repair_idempotent (s s1 : site) :
  run_build_repair s = Done (tt, s1) ->
  (exists s1', audit_infrastructure s1 = Done ([], s1')) /\
  exists s2,
    run_build_repair s1 = Done (tt, s2) /\
    root s2 = root s1 /\ ledger s2 = ledger s1.
Proof.
  intros H.
  assert (Hsrc : forall c, src (root s) <> SrcReg c).
  { intros c Hc. rewrite (run_build_repair_blocked s c Hc) in H.
    discriminate. }
  destruct (run_build_repair_root s Hsrc) as (s' & Hrun & Hlook & [n Hn] & _).
  rewrite Hrun in H. injection H as ->.
  assert (Hall : forall p, path_exists (root s1) p = true).
  { intros p. unfold path_exists at 1. rewrite Hlook.
    unfold path_exists. destruct (lookup (root s) p); reflexivity. }
  split.
  - eexists. unfold audit_infrastructure. rewrite audit_loop_spec.
    unfold required_files. cbn [filter app].
    rewrite !Hall. reflexivity.
  - assert (Hsrc1 : forall c, src (root s1) <> SrcReg c)
      by (intros c; rewrite Hn; discriminate).
    destruct (run_build_repair_root s1 Hsrc1) as (s2 & Hrun2 & _ & _ & Hsame).
    exists s2. split; [exact Hrun2|]. split; [exact (Hsame Hall)|].
    exact (proj1 (appends_run_build_repair _ _ _ Hrun2)).
Qed.

Lemma run_build_repair_idempotent_witness :
  run_build_repair empty_site = Done (tt, repaired_site) /\
  (exists s1', audit_infrastructure repaired_site = Done ([], s1')) /\
  exists s2,
    run_build_repair repaired_site = Done (tt, s2) /\
    root s2 = root repaired_site /\ ledger s2 = ledger repaired_site.
Proof.
  split; [exact run_build_repair_empty|].
  exact (run_build_repair_idempotent empty_site repaired_site
           run_build_repair_empty).
Defined.

(** X21. The one way [run_build_repair] fails: it raises
    [FileExistsError], from the [mkdir] of [generate_process_data],
    exactly when [src] is a regular file, and it raises nothing else. *)
Theorem run_build_repair_fails_iff (s : site) (e : error) :
  run_build_repair s = Failed e <->
  (exists c, src (root s) = SrcReg c) /\ e = FileExistsError.
Proof.
  split.
  - intros H. destruct (src (root s)) as [|c|n] eqn:E.
    + destruct (run_build_repair_root s) as (s' & Hr & _);
        [intros c; rewrite E; discriminate|]. congruence.
    + rewrite (run_build_repair_blocked s c E) in H. injection H as <-.
      split; [now exists c | reflexivity].
    + destruct (run_build_repair_root s) as (s' & Hr & _);
        [intros c; rewrite E; discriminate|]. congruence.
  - intros [[c Hc] ->]. exact (run_build_repair_blocked s c Hc).
Qed.

Lemma run_build_repair_fails_iff_witness :
  (exists c, src blocked_project = SrcReg c) /\
  run_build_repair (mkSite NoFile blocked_project []) = Failed FileExistsError.
Proof.
  assert (H : exists c, src blocked_project = SrcReg c)
    by (eexists; reflexivity).
  split; [exact H|].
  exact (proj2 (run_build_repair_fails_iff (mkSite NoFile blocked_project [])
                  FileExistsError) (conj H eq_refl)).
Defined.

(** ** The entry points that dispatch *)

Lemma lift_root {A : Type} (m : M A) (s s' : site) (a : A) :
  lift m s = Done (a, s') -> root s' = root s.
Proof.
  unfold lift. destruct (m _) as [[a' w]| | |]; try discriminate.
  intros H. now injection H as _ <-.
Qed.

Lemma lift_bind {A B : Type} (m : M A) (f : A -> M B) (s : site) :
  lift (bind m f) s = (lift m >>= fun a => lift (f a)) s.
Proof.
  unfold lift, bind, bindP.
  destruct (m (mkWorld (ledger s) (terminal s))) as [[a [d out]]| | |];
    reflexivity.
Qed.

Lemma lift_print (line : string) (s : site) :
  lift (print line) s = printP line s.
Proof. reflexivity. Qed.

Lemma lift_ret {A : Type} (a : A) (s : site) : lift (ret a) s = retP a s.
Proof. destruct s. reflexivity. Qed.

Lemma eqb_grant_verify (c : string) :
  String.eqb c "grant" = true -> String.eqb c "verify" = false.
Proof. intros H. apply String.eqb_eq in H. now subst. Qed.

(** X22. The last entry point keeps the ledger and the project root
    apart: a [grant] or [verify] run that returns has left the project
    root as it was, every other run that returns has left the ledger
    storage as it was, and a second word that is none of [grant],
    [verify] and [build] only prints the usage line, without
    constructing the ledger. *)
Theorem main_keeps_ledger_and_project_apart
  (fuel : nat) (t0 t1 : string) (argv : list string) (s : site) :
  (forall s', main fuel t0 t1 argv s = Done (tt, s') ->
              (is_chain_verb (nth_error argv 1) = true -> root s' = root s) /\
              (is_chain_verb (nth_error argv 1) = false ->
               ledger s' = ledger s)) /\
  (forall c, nth_error argv 1 = Some c ->
             c <> "grant" -> c <> "verify" -> c <> "build" ->
             main fuel t0 t1 argv s
             = Done (tt, mkSite (ledger s) (root s)
                                (terminal s ++ [usage_all]))).
Proof.
  split.
  - intros s' H. unfold main in H.
    destruct (is_chain_verb (nth_error argv 1)) eqn:Ev.
    + split; [intros _ | discriminate].
      unfold bindP in H.
      destruct (lift (HeadyChain_init t0) s) as [[hc s0]| | |] eqn:Ei;
        try discriminate.
      apply lift_root in Ei. rewrite <- Ei.
      destruct (cmd_is (nth_error argv 1) "grant").
      * destruct (4 <=? List.length argv)%nat.
        -- destruct (lift (add fuel t1 (arg argv 2) (arg argv 3) hc) s0)
             as [[hc1 s1]| | |] eqn:Ea; try discriminate.
           apply lift_root in Ea. now injection H as <-.
        -- now injection H as <-.
      * destruct (cmd_is (nth_error argv 1) "verify").
        -- destruct (4 <=? List.length argv)%nat; now injection H as <-.
        -- now injection H as <-.
    + split; [discriminate | intros _].
      destruct (cmd_is (nth_error argv 1) "build").
      * exact (proj1 (appends_run_build_repair _ _ _ H)).
      * destruct (nth_error argv 1).
        -- now injection H as <-.
        -- exact (proj1 (appends_run_build_repair _ _ _ H)).
  - intros c Hc Hg Hv Hb. unfold main. rewrite Hc.
    unfold is_chain_verb, cmd_is.
    apply String.eqb_neq in Hg, Hv, Hb. now rewrite Hg, Hv, Hb.
Qed.

Lemma main_keeps_ledger_and_project_apart_witness :
  BuildRepair.main 0 t_boot t_grant ["Heady_Chain.py"; "revoke"; "a"; "b"]
      empty_site
  = Done (tt, mkSite NoDir empty_project [usage_all]) /\
  BuildRepair.main 0 t_boot t_grant ["Heady_Chain.py"] empty_site
  = Done (tt, repaired_site) /\
  ledger repaired_site = ledger empty_site.
Proof.
  assert (Hb : BuildRepair.main 0 t_boot t_grant ["Heady_Chain.py"] empty_site
               = Done (tt, repaired_site))
    by exact run_build_repair_empty.
  split; [|split; [exact Hb|]].
  - apply (proj2 (main_keeps_ledger_and_project_apart 0 t_boot t_grant
                    ["Heady_Chain.py"; "revoke"; "a"; "b"] empty_site)
                 "revoke" eq_refl); discriminate.
  - exact (proj2 (proj1 (main_keeps_ledger_and_project_apart 0 t_boot t_grant
                           ["Heady_Chain.py"] empty_site) _ Hb) eq_refl).
Defined.

(** X23. With a [grant] or [verify] verb and both its arguments, the
    last entry point does to the ledger storage and the terminal exactly
    what the [__main__] block of the ledger does, and nothing to the
    project root. *)
Theorem main_agrees_with_ledger_main
  (fuel : nat) (t0 t1 p v r u : string) (rest : list string) (s : site) :
  v = "grant" \/ v = "verify" ->
  BuildRepair.main fuel t0 t1 (p :: v :: r :: u :: rest) s
  = lift (ledger_main fuel t0 t1 (p :: v :: r :: u :: rest)) s.
Proof.
  intros [-> | ->].
  - rewrite ledger_main_grant, lift_bind.
    unfold BuildRepair.main.
    cbn [nth_error is_chain_verb cmd_is String.eqb Ascii.eqb Bool.eqb orb
         List.length Nat.leb arg nth].
    unfold bindP. destruct (lift (HeadyChain_init t0) s) as [[hc s0]| | |];
      try reflexivity.
    rewrite lift_bind. unfold bindP.
    destruct (lift (add fuel t1 r u hc) s0) as [[hc1 s1]| | |];
      try reflexivity.
    now rewrite lift_ret.
  - rewrite ledger_main_verify, lift_bind.
    unfold BuildRepair.main.
    cbn [nth_error is_chain_verb cmd_is String.eqb Ascii.eqb Bool.eqb orb
         List.length Nat.leb arg nth].
    unfold bindP. destruct (lift (HeadyChain_init t0) s) as [[hc s0]| | |];
      reflexivity.
Qed.

Example main_grant_editor_bob :
  BuildRepair.main 5 t_boot t_grant
    ["Heady_Chain.py"; "grant"; "editor"; "bob"] empty_site
  = Done (tt, mkSite (File (Doc (JList (map vars [genesis_block;
                                                   editor_bob_block]))))
                     empty_project
                     [("Mined: " ++ hash editor_bob_block)%string]).
Proof. vm_compute. reflexivity. Qed.

Lemma main_agrees_with_ledger_main_witness :
  ("grant" = "grant" \/ "grant" = "verify") /\
  lift (ledger_main 5 t_boot t_grant
          ["Heady_Chain.py"; "grant"; "editor"; "bob"]) empty_site
  = Done (tt, mkSite (File (Doc (JList (map vars [genesis_block;
                                                   editor_bob_block]))))
                     empty_project
                     [("Mined: " ++ hash editor_bob_block)%string]).
Proof.
  assert (Hv : "grant" = "grant" \/ "grant" = "verify") by (left; reflexivity).
  split; [exact Hv|].
  rewrite <- (main_agrees_with_ledger_main 5 t_boot t_grant "Heady_Chain.py"
                "grant" "editor" "bob" [] empty_site Hv).
  exact main_grant_editor_bob.
Defined.

(** X24. The last two entry points differ only in a usage line: on
    every command line that does not name a ledger verb with fewer than
    four words they do the same, and where it does, both construct the
    ledger and then print one line, [usage_grant] or [usage_verify] in
    the last block and the common usage line in the one before. *)
Theorem entry_points_agree
  (fuel : nat) (t0 t1 : string) (argv : list string) (s : site) :
  (is_chain_verb (nth_error argv 1) = false \/ (4 <= List.length argv)%nat ->
   BuildRepair.main fuel t0 t1 argv s = main_length_first fuel t0 t1 argv s) /\
  (is_chain_verb (nth_error argv 1) = true -> (List.length argv < 4)%nat ->
   BuildRepair.main fuel t0 t1 argv s
   = (lift (HeadyChain_init t0)
      >> printP (if cmd_is (nth_error argv 1) "grant"
                 then usage_grant else usage_verify)) s /\
   main_length_first fuel t0 t1 argv s
   = (lift (HeadyChain_init t0) >> printP usage_line) s).
Proof.
  destruct argv as [|p [|c rest]].
  - split; [reflexivity | discriminate].
  - split; [reflexivity | discriminate].
  - unfold BuildRepair.main, main_length_first.
    cbn [nth_error is_chain_verb cmd_is].
    destruct (String.eqb c "grant") eqn:Eg.
    + apply String.eqb_eq in Eg. subst c.
      destruct rest as [|r [|u rest]]; cbn; split;
        first [ intros [H | H]; [discriminate | simpl in H; lia]
              | intros _ H; simpl in H; lia
              | intros; reflexivity
              | intros; split; reflexivity ].
    + destruct (String.eqb c "verify") eqn:Ev.
      * apply String.eqb_eq in Ev. subst c.
        destruct rest as [|r [|u rest]]; cbn; split;
          first [ intros [H | H]; [discriminate | simpl in H; lia]
                | intros _ H; simpl in H; lia
                | intros; reflexivity
                | intros; split; reflexivity ].
      * cbn [orb]. split; [|discriminate]. intros _.
        cbn [List.length Nat.leb arg nth]. rewrite Eg, Ev. cbn [orb].
        destruct (String.eqb c "build"); reflexivity.
Qed.

Lemma entry_points_agree_witness :
  (is_chain_verb (nth_error ["Heady_Chain.py"; "verify"] 1) = true /\
   (List.length ["Heady_Chain.py"; "verify"] < 4)%nat /\
   BuildRepair.main 0 t_boot t_grant ["Heady_Chain.py"; "verify"] empty_site
   = (lift (HeadyChain_init t_boot) >> printP usage_verify) empty_site /\
   main_length_first 0 t_boot t_grant ["Heady_Chain.py"; "verify"] empty_site
   = (lift (HeadyChain_init t_boot) >> printP usage_line) empty_site) /\
  ((is_chain_verb (nth_error ["Heady_Chain.py"; "build"] 1) = false \/
    (4 <= List.length ["Heady_Chain.py"; "build"])%nat) /\
   BuildRepair.main 0 t_boot t_grant ["Heady_Chain.py"; "build"] empty_site
   = main_length_first 0 t_boot t_grant ["Heady_Chain.py"; "build"] empty_site).
Proof.
  assert (H1 : is_chain_verb (nth_error ["Heady_Chain.py"; "verify"] 1) = true)
    by reflexivity.
  assert (H2 : (List.length ["Heady_Chain.py"; "verify"] < 4)%nat)
    by (simpl; lia).
  assert (H3 : is_chain_verb (nth_error ["Heady_Chain.py"; "build"] 1) = false \/
               (4 <= List.length ["Heady_Chain.py"; "build"])%nat)
    by (left; reflexivity).
  split.
  - split; [exact H1|]. split; [exact H2|].
    exact (proj2 (entry_points_agree 0 t_boot t_grant
                    ["Heady_Chain.py"; "verify"] empty_site) H1 H2).
  - split; [exact H3|].
    exact (proj1 (entry_points_agree 0 t_boot t_grant
                    ["Heady_Chain.py"; "build"] empty_site) H3).
Defined.
